(** * Load-testing telemetry generator and collector stub

    A shallow embedding of

    - [examples/load-testing/index.js]: the browser-side generator
      (configuration, run state, timers, simulated requests), in
      [Module LoadTesting];
    - [backend/main.go]: the collector stub's HTTP handler, in
      [Module Backend].

    JavaScript numbers: an integer is a [Z] (doubles are exact on
    integers below 2^53; the model sets no such limit), the result of
    [parseInt] a [Number] (an integer or [NaN]), a value of
    [Math.random()] a rational [Q] (every double is one) and
    [Math.floor] is [Qfloor].  The product of a draw and an integer is
    taken exactly, without the rounding of the double product.

    Time is a virtual clock in milliseconds.  A timer keeps the delay
    the script passed and the time at which the browser runs it, after
    the conversion of the delay to a 32-bit [long] and the floors of the
    timer algorithm. *)

From Stdlib Require Import ZArith QArith Qround List String Ascii Bool Lia.
From Stdlib Require Import DecimalString.
From Stdlib Require DecimalPos DecimalZ.
From Stdlib Require Import Permutation.
From stdpp Require gmap strings.
Import ListNotations.

#[local] Open Scope string_scope.
#[local] Open Scope Z_scope.

Module LoadTesting.

(** ** Numbers and [parseInt] *)

(** The result of [parseInt(_, 10)]: an integer or [NaN]. *)
Inductive Number : Type :=
| NaN
| Int (z : Z).

Definition isNaN (n : Number) : bool :=
  match n with NaN => true | Int _ => false end.

(** [n >= k]: every comparison with [NaN] is false. *)
Definition geNum (n : Number) (k : Z) : bool :=
  match n with NaN => false | Int z => k <=? z end.

(** [StrWhiteSpaceChar], restricted to its ASCII members. *)
Definition isWhiteSpace (c : ascii) : bool :=
  let n := nat_of_ascii c in
  ((9 <=? n) && (n <=? 13))%nat || (n =? 32)%nat.

Fixpoint trimStart (s : string) : string :=
  match s with
  | String c rest => if isWhiteSpace c then trimStart rest else s
  | EmptyString => s
  end.

Definition digitValue (c : ascii) : option Z :=
  let n := nat_of_ascii c in
  if ((48 <=? n) && (n <=? 57))%nat then Some (Z.of_nat n - 48) else None.

(** The longest prefix of radix-10 digits, read left to right; [None]
    when that prefix is empty. *)
Fixpoint digitsPrefix (s : string) (acc : option Z) : option Z :=
  match s with
  | String c rest =>
      match digitValue c with
      | Some d =>
          digitsPrefix rest
            (Some (match acc with Some a => 10 * a + d | None => d end))
      | None => acc
      end
  | EmptyString => acc
  end.

(** [parseInt(v, 10)].  [None] is [undefined] (the element is absent and
    [?.value] short-circuits), whose string form has no digit. *)
Definition parseInt (v : option string) : Number :=
  match v with
  | None => NaN
  | Some s =>
      let t := trimStart s in
      let '(sign, body) :=
        match t with
        | String "-" rest => (-1, rest)
        | String "+" rest => (1, rest)
        | _ => (1, t)
        end in
      match digitsPrefix body None with
      | Some z => Int (sign * z)
      | None => NaN
      end
  end.

(** ** Configuration *)

Record Config : Type := {
  minInterval : Z;   (* minimum ms between spans *)
  maxInterval : Z;   (* maximum ms between spans *)
  batchSize : Z      (* number of spans to generate per interval *)
}.

Definition initialConfig : Config :=
  {| minInterval := 100; maxInterval := 1000; batchSize := 1 |}.

(** The three input elements [updateConfig] reads; a field is [None]
    when [document.getElementById] finds no such element. *)
Record Document : Type := {
  minIntervalEl : option string;
  maxIntervalEl : option string;
  batchSizeEl : option string
}.

Definition setMinInterval (c : Config) (v : Z) : Config :=
  {| minInterval := v; maxInterval := maxInterval c; batchSize := batchSize c |}.
Definition setMaxInterval (c : Config) (v : Z) : Config :=
  {| minInterval := minInterval c; maxInterval := v; batchSize := batchSize c |}.
Definition setBatchSize (c : Config) (v : Z) : Config :=
  {| minInterval := minInterval c; maxInterval := maxInterval c; batchSize := v |}.

(** [config.field = n], reached only under a guard that excludes
    [NaN]. *)
Definition store (set : Config -> Z -> Config) (n : Number) (c : Config) : Config :=
  match n with
  | Int v => set c v
  | NaN => c
  end.

(** The three guarded assignments of [updateConfig], in source order:
    the [maxInterval] guard reads [config.minInterval] after the
    [minInterval] assignment has run. *)
Definition applyConfig (minI maxI batch : Number) (c : Config) : Config :=
  let c := if negb (isNaN minI) && geNum minI 10
           then store setMinInterval minI c else c in
  let c := if negb (isNaN maxI) && geNum maxI (minInterval c)
           then store setMaxInterval maxI c else c in
  if negb (isNaN batch) && geNum batch 1
  then store setBatchSize batch c else c.

(** The configuration after [updateConfig] has read the three fields. *)
Definition updateConfigOf (d : Document) (c : Config) : Config :=
  applyConfig (parseInt (minIntervalEl d)) (parseInt (maxIntervalEl d))
    (parseInt (batchSizeEl d)) c.

(** ** Telemetry and console output *)

(** [SeverityNumber] of [@opentelemetry/api-logs]. *)
Module SeverityNumber.
Definition DEBUG : Z := 5.
Definition INFO : Z := 9.
Definition WARN : Z := 13.
Definition ERROR : Z := 17.
End SeverityNumber.

Inductive AttrValue : Type :=
| AStr (s : string)
| ANum (n : Z)
| ABool (b : bool).

(** An attribute object literal, in the order its keys are written. *)
Definition Attributes : Type := list (string * AttrValue).

Inductive Instrument : Type :=
| requestCounter      (* load_test.requests *)
| requestDuration     (* load_test.request_duration *)
| activeSpansGauge    (* load_test.active_spans *)
| errorCounter.       (* load_test.errors *)

(** A span handle: the index of the [tracer.startSpan] call that made it. *)
Definition Span : Type := nat.

(** What the script hands to the SDK, the console and the page. *)
Inductive Effect : Type :=
| LoggerEmit (severityNumber : Z) (severityText body : string) (attributes : Attributes)
| InstrumentAdd (i : Instrument) (value : Z) (attributes : Attributes)
| InstrumentRecord (i : Instrument) (value : Z) (attributes : Attributes)
| StartSpan (span : Span) (parent : option Span) (name : string) (attributes : Attributes)
| AddEvent (span : Span) (name : string) (attributes : Attributes)
| SetStatus (span : Span) (code : Z) (message : option string)
| EndSpan (span : Span)
| ConsoleLog (line : string)
| ConsoleTraceId (span : Span)   (* console.log(`Trace ID: ${span.spanContext().traceId}`) *)
| UpdateUI (running : bool) (counter : Z).

(** [n.toString()] and [`${n}`] of an integer. *)
Definition toString (n : Z) : string := NilZero.string_of_int (Z.to_int n).

(** ** Timers and state *)

(** The variables the completion closure of [generateSpan] captures.
    [spanCount] is not among them: the closure reads the global. *)
Record Request : Type := {
  endpoint : string;
  method : string;
  statusCode : Z;
  duration : Z;
  isError : bool;
  span : Span
}.

(** The three functions passed to [setTimeout]. *)
Inductive Callback : Type :=
| scheduleNextCb
| childEndCb (childSpan : Span)
| spanEndCb (r : Request).

Record Timer : Type := {
  timerId : Z;
  due : Q;               (* the clock when it was set plus the delay passed *)
  callback : Callback;
  fires : Q;             (* virtual time, in ms, at which the browser runs it *)
  level : nat            (* its timer nesting level *)
}.

Record State : Type := {
  config : Config;
  isRunning : bool;
  intervalId : option Z;          (* [None] is [null] *)
  spanCount : Z;
  activeSpans : Z;
  (* the environment the script runs in *)
  now : Q;                        (* virtual clock, ms *)
  timers : list Timer;            (* pending timers, oldest first *)
  nextTimerId : Z;
  nextSpan : Span;
  rng : nat -> Q;                 (* the values [Math.random()] returns, in call order *)
  draws : nat;                    (* how many have been returned *)
  nesting : nat                   (* timer nesting level of the running task *)
}.

Definition initialState (r : nat -> Q) : State :=
  {| config := initialConfig; isRunning := false; intervalId := None;
     spanCount := 0; activeSpans := 0;
     now := 0; timers := []; nextTimerId := 1; nextSpan := O;
     rng := r; draws := O; nesting := O |}.

Definition withConfig (c : Config) (s : State) : State :=
  {| config := c; isRunning := isRunning s; intervalId := intervalId s;
     spanCount := spanCount s; activeSpans := activeSpans s; now := now s;
     timers := timers s; nextTimerId := nextTimerId s; nextSpan := nextSpan s;
     rng := rng s; draws := draws s; nesting := nesting s |}.
Definition withIsRunning (b : bool) (s : State) : State :=
  {| config := config s; isRunning := b; intervalId := intervalId s;
     spanCount := spanCount s; activeSpans := activeSpans s; now := now s;
     timers := timers s; nextTimerId := nextTimerId s; nextSpan := nextSpan s;
     rng := rng s; draws := draws s; nesting := nesting s |}.
Definition withIntervalId (i : option Z) (s : State) : State :=
  {| config := config s; isRunning := isRunning s; intervalId := i;
     spanCount := spanCount s; activeSpans := activeSpans s; now := now s;
     timers := timers s; nextTimerId := nextTimerId s; nextSpan := nextSpan s;
     rng := rng s; draws := draws s; nesting := nesting s |}.
Definition withSpanCount (n : Z) (s : State) : State :=
  {| config := config s; isRunning := isRunning s; intervalId := intervalId s;
     spanCount := n; activeSpans := activeSpans s; now := now s;
     timers := timers s; nextTimerId := nextTimerId s; nextSpan := nextSpan s;
     rng := rng s; draws := draws s; nesting := nesting s |}.
Definition withActiveSpans (n : Z) (s : State) : State :=
  {| config := config s; isRunning := isRunning s; intervalId := intervalId s;
     spanCount := spanCount s; activeSpans := n; now := now s;
     timers := timers s; nextTimerId := nextTimerId s; nextSpan := nextSpan s;
     rng := rng s; draws := draws s; nesting := nesting s |}.
Definition withNow (t : Q) (s : State) : State :=
  {| config := config s; isRunning := isRunning s; intervalId := intervalId s;
     spanCount := spanCount s; activeSpans := activeSpans s; now := t;
     timers := timers s; nextTimerId := nextTimerId s; nextSpan := nextSpan s;
     rng := rng s; draws := draws s; nesting := nesting s |}.
Definition withTimers (ts : list Timer) (s : State) : State :=
  {| config := config s; isRunning := isRunning s; intervalId := intervalId s;
     spanCount := spanCount s; activeSpans := activeSpans s; now := now s;
     timers := ts; nextTimerId := nextTimerId s; nextSpan := nextSpan s;
     rng := rng s; draws := draws s; nesting := nesting s |}.
Definition withNextTimerId (n : Z) (s : State) : State :=
  {| config := config s; isRunning := isRunning s; intervalId := intervalId s;
     spanCount := spanCount s; activeSpans := activeSpans s; now := now s;
     timers := timers s; nextTimerId := n; nextSpan := nextSpan s;
     rng := rng s; draws := draws s; nesting := nesting s |}.
Definition withNextSpan (n : Span) (s : State) : State :=
  {| config := config s; isRunning := isRunning s; intervalId := intervalId s;
     spanCount := spanCount s; activeSpans := activeSpans s; now := now s;
     timers := timers s; nextTimerId := nextTimerId s; nextSpan := n;
     rng := rng s; draws := draws s; nesting := nesting s |}.
Definition withDraws (n : nat) (s : State) : State :=
  {| config := config s; isRunning := isRunning s; intervalId := intervalId s;
     spanCount := spanCount s; activeSpans := activeSpans s; now := now s;
     timers := timers s; nextTimerId := nextTimerId s; nextSpan := nextSpan s;
     rng := rng s; draws := n; nesting := nesting s |}.
Definition withNesting (n : nat) (s : State) : State :=
  {| config := config s; isRunning := isRunning s; intervalId := intervalId s;
     spanCount := spanCount s; activeSpans := activeSpans s; now := now s;
     timers := timers s; nextTimerId := nextTimerId s; nextSpan := nextSpan s;
     rng := rng s; draws := draws s; nesting := n |}.

(** ** A state-and-output monad for the script's statements *)

(** A statement yields a value, the next state and what it emitted. *)
Definition M (A : Type) : Type := State -> A * State * list Effect.

Definition ret {A} (a : A) : M A := fun s => (a, s, []).
Definition bind {A B} (m : M A) (k : A -> M B) : M B :=
  fun s =>
    let '(a, s1, o1) := m s in
    let '(b, s2, o2) := k a s1 in
    (b, s2, (o1 ++ o2)%list).

Notation "x <- m ;; k" := (bind m (fun x => k))
  (at level 61, m at next level, right associativity).
Notation "m ;; k" := (bind m (fun _ => k))
  (at level 61, right associativity).

Definition gets {A} (f : State -> A) : M A := fun s => (f s, s, []).
Definition modify (f : State -> State) : M unit := fun s => (tt, f s, []).
Definition emit (e : Effect) : M unit := fun s => (tt, s, [e]).

Definition exec {A} (m : M A) (s : State) : State := snd (fst (m s)).
Definition effects {A} (m : M A) (s : State) : list Effect := snd (m s).
Definition result {A} (m : M A) (s : State) : A := fst (fst (m s)).

(** [for (let i = 0; i < n; i++) body(i)]. *)
Fixpoint forLoop (n : nat) (i : Z) (body : Z -> M unit) : M unit :=
  match n with
  | O => ret tt
  | S n' => body i ;; forLoop n' (i + 1) body
  end.

(** ** The environment's primitives *)

(** [Math.random()]. *)
Definition random : M Q :=
  fun s => (rng s (draws s), withDraws (S (draws s)) s, []).

(** [Math.floor(x * n)] for a draw [x] and an integer [n]. *)
Definition floorScaled (x : Q) (n : Z) : Z := Qfloor (x * inject_Z n).

(** What the browser makes of the number passed as the delay of
    [setTimeout].  The parameter is a [long]: the number is truncated
    toward zero and reduced modulo [2^32] into
    [[-2^31, 2^31 - 1]]. *)
Definition truncate (x : Q) : Z :=
  if Qle_bool 0 x then Qfloor x else Qceiling x.

(** The conversion of a number to a [long]. *)
Definition toLong (x : Q) : Z :=
  let m := truncate x mod 2 ^ 32 in
  if 2 ^ 31 <=? m then m - 2 ^ 32 else m.

(** The timeout of a timer set by a task of timer nesting level
    [nestingLevel]: a negative one is taken as 0, and one below 4 ms is
    raised to 4 ms once the nesting level exceeds 5. *)
Definition timeoutOf (nestingLevel : nat) (delay : Q) : Z :=
  let timeout := toLong delay in
  let timeout := if timeout <? 0 then 0 else timeout in
  if (5 <? nestingLevel)%nat && (timeout <? 4) then 4 else timeout.

(** [setTimeout(cb, delay)]: the timer is appended to the pending ones
    and its (positive) id returned.  [due] keeps the delay as the script
    passed it; the browser runs the timer [timeoutOf] milliseconds after
    it was set, which is the delay itself only for a whole number of
    [[0, 2^31 - 1]] (from 4 on in deeply nested timers): a fraction is
    dropped, and a negative delay or one of [2^31] to [2^32 - 1] gives
    the timeout 0 (4 when deeply nested).  A browser may delay a timer
    further (a throttled background tab); the model runs it as soon as
    it is allowed to. *)
Definition setTimeout (cb : Callback) (delay : Q) : M Z :=
  fun s =>
    let id := nextTimerId s in
    (id,
     withNextTimerId (id + 1)
       (withTimers (timers s ++ [{| timerId := id; due := (now s + delay)%Q;
                                    callback := cb;
                                    fires := (now s + inject_Z (timeoutOf (nesting s) delay))%Q;
                                    level := S (nesting s) |}])%list s),
     []).

Definition removeTimer (id : Z) (ts : list Timer) : list Timer :=
  List.filter (fun t => negb (timerId t =? id)) ts.

(** [clearTimeout(id)]. *)
Definition clearTimeout (id : Z) : M unit :=
  modify (fun s => withTimers (removeTimer id (timers s)) s).

(** [tracer.startSpan(name, {attributes})] under the active context
    [parent]. *)
Definition startSpan (parent : option Span) (name : string) (attrs : Attributes) : M Span :=
  fun s =>
    let sp := nextSpan s in
    (sp, withNextSpan (S sp) s, [StartSpan sp parent name attrs]).

(** ** The script *)

Definition endpoints : list string :=
  [ "/api/users"; "/api/products"; "/api/orders"; "/api/checkout";
    "/api/inventory"; "/api/payments"; "/api/notifications"; "/api/analytics" ].

Definition httpMethods : list string := [ "GET"; "POST"; "PUT"; "DELETE" ].

Definition statusCodes : list Z := [ 200; 200; 200; 200; 201; 204; 400; 404; 500 ].

Definition logMessages : list string :=
  [ "Processing request"; "Request completed successfully"; "Cache hit";
    "Cache miss - fetching from database"; "Database query executed";
    "User authenticated"; "Session validated"; "Rate limit check passed";
    "Webhook triggered"; "Background job queued" ].

(** [arr[Math.floor(Math.random() * arr.length)]].  [undef] stands for
    the [undefined] an index out of range reads; no draw of [[0,1)]
    reaches it. *)
Definition randomElement {A} (undef : A) (arr : list A) : M A :=
  x <- random ;;
  ret (nth (Z.to_nat (floorScaled x (Z.of_nat (List.length arr)))) arr undef).

Definition randomDuration : M Z :=
  x <- random ;;
  ret (floorScaled x 500 + 50).

Definition getSeverityText (severityNumber : Z) : string :=
  if severityNumber <=? SeverityNumber.DEBUG then "DEBUG"
  else if severityNumber <=? SeverityNumber.INFO then "INFO"
  else if severityNumber <=? SeverityNumber.WARN then "WARN"
  else "ERROR".

Definition emitLog (message : string) (severityNumber : Z) (attributes : Attributes) : M unit :=
  emit (LoggerEmit severityNumber (getSeverityText severityNumber) message
          (("log.source", AStr "load-testing") :: attributes)).

(** The callback that ends the child span, [duration / 2] later. *)
Definition childEnd (childSpan : Span) : M unit :=
  x <- random ;;
  emit (AddEvent childSpan "Query executed"
          [("db.rows_affected", ANum (floorScaled x 100))]) ;;
  emit (EndSpan childSpan).

(** The callback that ends the primary span, [duration] later. *)
Definition spanEnd (r : Request) : M unit :=
  (if isError r then
     emit (SetStatus (span r) 2 (Some ("HTTP " ++ toString (statusCode r) ++ " Error"))) ;;
     emit (InstrumentAdd errorCounter 1
             [("status_code", AStr (toString (statusCode r))); ("endpoint", AStr (endpoint r))]) ;;
     emitLog ("Error: " ++ method r ++ " " ++ endpoint r ++ " returned " ++ toString (statusCode r))
       SeverityNumber.ERROR
       [("http.method", AStr (method r)); ("http.url", AStr (endpoint r));
        ("http.status_code", ANum (statusCode r)); ("error", ABool true)]
   else
     emit (SetStatus (span r) 1 None) ;;
     emitLog ("Completed " ++ method r ++ " " ++ endpoint r ++ " in " ++ toString (duration r) ++ "ms")
       SeverityNumber.INFO
       [("http.method", AStr (method r)); ("http.url", AStr (endpoint r));
        ("duration_ms", ANum (duration r))]) ;;
  emit (InstrumentRecord requestDuration (duration r)
          [("method", AStr (method r)); ("endpoint", AStr (endpoint r));
           ("status_code", AStr (toString (statusCode r)))]) ;;
  emit (EndSpan (span r)) ;;
  modify (fun s => withActiveSpans (activeSpans s - 1) s) ;;
  emit (InstrumentAdd activeSpansGauge (-1) []) ;;
  n <- gets spanCount ;;
  emit (ConsoleLog ("[Span #" ++ toString n ++ "] " ++ method r ++ " " ++ endpoint r
                      ++ " -> " ++ toString (statusCode r) ++ " (" ++ toString (duration r) ++ "ms)")) ;;
  n <- gets spanCount ;;
  if n mod 10 =? 0 then emit (ConsoleTraceId (span r)) else ret tt.

(** One [span.addEvent] of the loop over [i < numEvents]. *)
Definition addEvent (sp : Span) (dur numEvents i : Z) : M unit :=
  name <- randomElement "undefined" logMessages ;;
  emit (AddEvent sp name
          [("event.index", ANum i);
           ("timestamp.relative", AStr (toString ((dur * (i + 1)) / (numEvents + 1)) ++ "ms"))]).

Definition generateSpan : M unit :=
  endpoint <- randomElement "undefined" endpoints ;;
  method <- randomElement "undefined" httpMethods ;;
  statusCode <- randomElement 0 statusCodes ;;
  duration <- randomDuration ;;
  let isError := 400 <=? statusCode in
  modify (fun s => withSpanCount (spanCount s + 1) s) ;;
  modify (fun s => withActiveSpans (activeSpans s + 1) s) ;;
  emit (InstrumentAdd activeSpansGauge 1 []) ;;
  n <- gets spanCount ;;
  span <- startSpan None (method ++ " " ++ endpoint)
            [("http.method", AStr method);
             ("http.url", AStr ("https://example.com" ++ endpoint));
             ("http.route", AStr endpoint);
             ("http.status_code", ANum statusCode);
             ("span.number", ANum n)] ;;
  emit (InstrumentAdd requestCounter 1
          [("method", AStr method); ("endpoint", AStr endpoint);
           ("status_code", AStr (toString statusCode))]) ;;
  n <- gets spanCount ;;
  emitLog ("Starting " ++ method ++ " " ++ endpoint) SeverityNumber.INFO
    [("http.method", AStr method); ("http.url", AStr endpoint); ("span.id", ANum n)] ;;
  (* context.with(trace.setSpan(context.active(), span), ...) *)
  x <- random ;;
  let numEvents := floorScaled x 3 + 1 in
  forLoop (Z.to_nat numEvents) 0 (addEvent span duration numEvents) ;;
  x <- random ;;
  (if Qlt_le_dec (7 # 10) x then
     childSpan <- startSpan (Some span) "database.query"
                    [("db.system", AStr "postgresql"); ("db.operation", AStr "SELECT");
                     ("db.name", AStr "mydb")] ;;
     setTimeout (childEndCb childSpan) (inject_Z duration / 2) ;;
     ret tt
   else ret tt) ;;
  setTimeout (spanEndCb {| endpoint := endpoint; method := method; statusCode := statusCode;
                           duration := duration; isError := isError; span := span |})
    (inject_Z duration) ;;
  ret tt.

Definition updateUI : M unit :=
  running <- gets isRunning ;;
  n <- gets spanCount ;;
  emit (UpdateUI running n).

(** [Math.floor(Math.random() * range) + config.minInterval]. *)
Definition nextIntervalOf (c : Config) (x : Q) : Z :=
  let range := maxInterval c - minInterval c in
  floorScaled x range + minInterval c.

Definition scheduleNext : M unit :=
  running <- gets isRunning ;;
  if negb running then ret tt
  else
    (* the bound [config.batchSize] is read at each test of the loop;
       [generateSpan] does not write it *)
    c <- gets config ;;
    forLoop (Z.to_nat (batchSize c)) 0 (fun _ => generateSpan) ;;
    c <- gets config ;;
    x <- random ;;
    id <- setTimeout scheduleNextCb (inject_Z (nextIntervalOf c x)) ;;
    modify (withIntervalId (Some id)).

Definition startLoadTest : M unit :=
  running <- gets isRunning ;;
  if running then emit (ConsoleLog "Load test already running")
  else
    modify (withIsRunning true) ;;
    modify (withSpanCount 0) ;;
    modify (withActiveSpans 0) ;;
    emitLog "Load test started" SeverityNumber.INFO [("test.action", AStr "start")] ;;
    emit (ConsoleLog "Starting continuous load test...") ;;
    updateUI ;;
    scheduleNext.

Definition updateConfig (d : Document) : M unit :=
  modify (fun s => withConfig (updateConfigOf d (config s)) s) ;;
  c <- gets config ;;
  emit (ConsoleLog ("Config updated: interval=" ++ toString (minInterval c) ++ "-"
                      ++ toString (maxInterval c) ++ "ms, batch=" ++ toString (batchSize c))).

(** [if (intervalId)]: [null] and 0 are falsy; the ids [setTimeout]
    returns are positive. *)
Definition stopLoadTest : M unit :=
  running <- gets isRunning ;;
  if negb running then emit (ConsoleLog "Load test not running")
  else
    modify (withIsRunning false) ;;
    id <- gets intervalId ;;
    match id with
    | Some i =>
        if i =? 0 then ret tt
        else clearTimeout i ;; modify (withIntervalId None)
    | None => ret tt
    end ;;
    n <- gets spanCount ;;
    emitLog "Load test stopped" SeverityNumber.INFO
      [("test.action", AStr "stop"); ("total.spans", ANum n)] ;;
    n <- gets spanCount ;;
    emit (ConsoleLog ("Load test stopped. Total spans generated: " ++ toString n)) ;;
    updateUI.

(** ** The event loop *)

Definition runCallback (cb : Callback) : M unit :=
  match cb with
  | scheduleNextCb => scheduleNext
  | childEndCb c => childEnd c
  | spanEndCb r => spanEnd r
  end.

(** The pending timer that fires first: the least firing time, and
    among equal ones the oldest. *)
Fixpoint earliest (ts : list Timer) : option Timer :=
  match ts with
  | [] => None
  | t :: rest =>
      match earliest rest with
      | Some u => if Qle_bool (fires t) (fires u) then Some t else Some u
      | None => Some t
      end
  end.

(** The clock advances to the next pending timer, which is removed and
    run as a task of its nesting level; the tasks of clicks and input
    events, which run between timers, have level 0.  Nothing happens
    when no timer is pending. *)
Definition timerFires : M unit :=
  ts <- gets timers ;;
  match earliest ts with
  | None => ret tt
  | Some t =>
      clearTimeout (timerId t) ;;
      modify (fun s => withNow (if Qle_bool (now s) (fires t) then fires t else now s) s) ;;
      modify (withNesting (level t)) ;;
      runCallback (callback t) ;;
      modify (withNesting O)
  end.

(** The state in which the callback of the fired timer [t] runs. *)
Definition firedState (t : Timer) (s : State) : State :=
  withNesting (level t)
    (withNow (if Qle_bool (now s) (fires t) then fires t else now s)
       (withTimers (removeTimer (timerId t) (timers s)) s)).

(** What can happen to the page once it is loaded: a click on either
    button, a [change]/[input] event of a configuration field, or the
    next timer.  The 500 ms display refresh only reads the counters and
    is left out. *)
Inductive Action : Type :=
| clickStart
| clickStop
| inputConfig (d : Document)
| timerFired.

Definition handle (a : Action) : M unit :=
  match a with
  | clickStart => startLoadTest
  | clickStop => stopLoadTest
  | inputConfig d => updateConfig d
  | timerFired => timerFires
  end.

Fixpoint run (script : list Action) : M unit :=
  match script with
  | [] => ret tt
  | a :: rest => handle a ;; run rest
  end.

(** ** Notions used to state properties *)

(** Every value [Math.random()] returns lies in [[0,1)]. *)
Definition unitDraws (s : State) : Prop :=
  forall n : nat, (0 <= rng s n < 1)%Q.

(** The [k]-th value [Math.random()] returns from state [s] on. *)
Definition draw (s : State) (k : nat) : Q := rng s (k + draws s)%nat.

(** The event [span.addEvent] attaches at index [i] when [x] is the
    draw that picks its name. *)
Definition eventOf (sp : Span) (dur numEvents i : Z) (x : Q) : Effect :=
  AddEvent sp
    (nth (Z.to_nat (floorScaled x (Z.of_nat (List.length logMessages)))) logMessages "undefined")
    [("event.index", ANum i);
     ("timestamp.relative", AStr (toString ((dur * (i + 1)) / (numEvents + 1)) ++ "ms"))].

(** The request a call of [generateSpan] in state [s] simulates: its
    first four draws pick endpoint, method, status code and duration. *)
Definition requestOf (s : State) : Request :=
  let statusCode :=
    nth (Z.to_nat (floorScaled (draw s 2) (Z.of_nat (List.length statusCodes)))) statusCodes 0 in
  {| endpoint :=
       nth (Z.to_nat (floorScaled (draw s 0) (Z.of_nat (List.length endpoints)))) endpoints "undefined";
     method :=
       nth (Z.to_nat (floorScaled (draw s 1) (Z.of_nat (List.length httpMethods)))) httpMethods "undefined";
     statusCode := statusCode;
     duration := floorScaled (draw s 3) 500 + 50;
     isError := 400 <=? statusCode;
     span := nextSpan s |}.

(** Its number of events, from the fifth draw. *)
Definition numEventsOf (s : State) : Z := floorScaled (draw s 4) 3 + 1.

(** Whether it opens the child span: the draw after the event names. *)
Definition opensChild (s : State) : bool :=
  if Qlt_le_dec (7 # 10) (rng s (Z.to_nat (numEventsOf s) + (5 + draws s))%nat) then true else false.

Definition childTimers (s : State) : list Timer :=
  if opensChild s
  then [{| timerId := nextTimerId s;
           due := (now s + inject_Z (duration (requestOf s)) / 2)%Q;
           callback := childEndCb (S (nextSpan s));
           fires := (now s + inject_Z (timeoutOf (nesting s)
                                         (inject_Z (duration (requestOf s)) / 2)))%Q;
           level := S (nesting s) |}]
  else [].

Definition primaryTimer (s : State) : Timer :=
  {| timerId := if opensChild s then nextTimerId s + 1 else nextTimerId s;
     due := (now s + inject_Z (duration (requestOf s)))%Q;
     callback := spanEndCb (requestOf s);
     fires := (now s + inject_Z (timeoutOf (nesting s)
                                   (inject_Z (duration (requestOf s)))))%Q;
     level := S (nesting s) |}.

(** The state and the output of [generateSpan] in closed form
    ([generateSpan_run] proves them to be that). *)
Definition generatedState (s : State) : State :=
  {| config := config s; isRunning := isRunning s; intervalId := intervalId s;
     spanCount := spanCount s + 1; activeSpans := activeSpans s + 1;
     now := now s;
     timers := (timers s ++ childTimers s ++ [primaryTimer s])%list;
     nextTimerId := if opensChild s then nextTimerId s + 1 + 1 else nextTimerId s + 1;
     nextSpan := if opensChild s then S (S (nextSpan s)) else S (nextSpan s);
     rng := rng s;
     draws := S (Z.to_nat (numEventsOf s) + (5 + draws s));
     nesting := nesting s |}.

Definition generatedEvents (s : State) : list Effect :=
  map (fun k => eventOf (nextSpan s) (duration (requestOf s)) (numEventsOf s)
                  (Z.of_nat k) (rng s (k + (5 + draws s))%nat))
    (seq 0 (Z.to_nat (numEventsOf s))).

Definition generatedEffects (s : State) : list Effect :=
  let r := requestOf s in
  ([ InstrumentAdd activeSpansGauge 1 [];
     StartSpan (nextSpan s) None (method r ++ " " ++ endpoint r)
       [("http.method", AStr (method r));
        ("http.url", AStr ("https://example.com" ++ endpoint r));
        ("http.route", AStr (endpoint r));
        ("http.status_code", ANum (statusCode r));
        ("span.number", ANum (spanCount s + 1))];
     InstrumentAdd requestCounter 1
       [("method", AStr (method r)); ("endpoint", AStr (endpoint r));
        ("status_code", AStr (toString (statusCode r)))];
     LoggerEmit SeverityNumber.INFO "INFO" ("Starting " ++ method r ++ " " ++ endpoint r)
       [("log.source", AStr "load-testing"); ("http.method", AStr (method r));
        ("http.url", AStr (endpoint r)); ("span.id", ANum (spanCount s + 1))] ]
   ++ generatedEvents s
   ++ (if opensChild s
       then [StartSpan (S (nextSpan s)) (Some (nextSpan s)) "database.query"
               [("db.system", AStr "postgresql"); ("db.operation", AStr "SELECT");
                ("db.name", AStr "mydb")]]
       else []))%list.

(** Classifiers of the output. *)

Definition isStoppedEvent (e : Effect) : bool :=
  match e with
  | LoggerEmit _ _ body _ => String.eqb body "Load test stopped"
  | _ => false
  end.

Definition isLoggerEmit (e : Effect) : bool :=
  match e with LoggerEmit _ _ _ _ => true | _ => false end.

Definition isSetStatus (e : Effect) : bool :=
  match e with SetStatus _ _ _ => true | _ => false end.

Definition isErrorCounterAdd (e : Effect) : bool :=
  match e with InstrumentAdd errorCounter _ _ => true | _ => false end.

Definition isInstrumentRecord (e : Effect) : bool :=
  match e with InstrumentRecord _ _ _ => true | _ => false end.

Definition isAddEvent (e : Effect) : bool :=
  match e with AddEvent _ _ _ => true | _ => false end.

Definition isConsoleTraceId (e : Effect) : bool :=
  match e with ConsoleTraceId _ => true | _ => false end.

(** The "stopped" event carrying [total]. *)
Definition stoppedEvent (total : Z) : Effect :=
  LoggerEmit SeverityNumber.INFO "INFO" "Load test stopped"
    [("log.source", AStr "load-testing"); ("test.action", AStr "stop");
     ("total.spans", ANum total)].

(** The batch loop of [scheduleNext]. *)
Definition batch (n : nat) : M unit := forLoop n 0 (fun _ => generateSpan).

(** The state the batch of a cycle started in [s] leaves. *)
Definition afterBatch (s : State) : State :=
  exec (batch (Z.to_nat (batchSize (config s)))) s.

(** The timer a cycle started in [s] sets for the next one. *)
Definition nextCycleTimer (s : State) : Timer :=
  let sb := afterBatch s in
  {| timerId := nextTimerId sb;
     due := (now sb + inject_Z (nextIntervalOf (config sb) (rng sb (draws sb))))%Q;
     callback := scheduleNextCb;
     fires := (now sb + inject_Z (timeoutOf (nesting sb)
                                    (inject_Z (nextIntervalOf (config sb) (rng sb (draws sb))))))%Q;
     level := S (nesting sb) |}.

(** The state [startLoadTest] hands to the first cycle. *)
Definition started (s : State) : State :=
  withActiveSpans 0 (withSpanCount 0 (withIsRunning true s)).

(** The output of the completion callback of [r] when it runs with the
    global [spanCount] at [n] ([spanEnd_run] proves it to be that). *)
Definition completionEffects (r : Request) (n : Z) : list Effect :=
  ((if isError r then
      [ SetStatus (span r) 2 (Some ("HTTP " ++ toString (statusCode r) ++ " Error")%string);
        InstrumentAdd errorCounter 1
          [("status_code", AStr (toString (statusCode r))); ("endpoint", AStr (endpoint r))];
        LoggerEmit SeverityNumber.ERROR "ERROR"
          ("Error: " ++ method r ++ " " ++ endpoint r ++ " returned " ++ toString (statusCode r))
          [("log.source", AStr "load-testing");
           ("http.method", AStr (method r)); ("http.url", AStr (endpoint r));
           ("http.status_code", ANum (statusCode r)); ("error", ABool true)] ]
    else
      [ SetStatus (span r) 1 None;
        LoggerEmit SeverityNumber.INFO "INFO"
          ("Completed " ++ method r ++ " " ++ endpoint r ++ " in " ++ toString (duration r) ++ "ms")
          [("log.source", AStr "load-testing");
           ("http.method", AStr (method r)); ("http.url", AStr (endpoint r));
           ("duration_ms", ANum (duration r))] ])
   ++ [ InstrumentRecord requestDuration (duration r)
          [("method", AStr (method r)); ("endpoint", AStr (endpoint r));
           ("status_code", AStr (toString (statusCode r)))];
        EndSpan (span r);
        InstrumentAdd activeSpansGauge (-1) [];
        ConsoleLog ("[Span #" ++ toString n ++ "] " ++ method r ++ " " ++ endpoint r
                      ++ " -> " ++ toString (statusCode r) ++ " (" ++ toString (duration r) ++ "ms)") ]
   ++ (if n mod 10 =? 0 then [ConsoleTraceId (span r)] else []))%list.

(** A statement that leaves the configuration as it is. *)
Definition keepsConfig {A} (m : M A) : Prop :=
  forall s : State, config (exec m s) = config s.

(** The bounds every validated update respects. *)
Definition boundsHold (c : Config) : Prop :=
  10 <= minInterval c /\ 10 <= maxInterval c /\ 1 <= batchSize c.

(** The line [updateConfig] writes to the console. *)
Definition configLine (c : Config) : Effect :=
  ConsoleLog ("Config updated: interval=" ++ toString (minInterval c) ++ "-"
                ++ toString (maxInterval c) ++ "ms, batch=" ++ toString (batchSize c)).

(** Requests in flight: the pending completion timers. *)
Definition isCompletion (t : Timer) : bool :=
  match callback t with
  | spanEndCb _ => true
  | _ => false
  end.

Definition inFlight (s : State) : nat :=
  List.length (List.filter isCompletion (timers s)).

(** The timers are well numbered, [intervalId] names no timer but one
    of [scheduleNext], and [activeSpans] counts the requests in flight. *)
Record consistent (s : State) : Prop := {
  ids_below : forall t, In t (timers s) -> timerId t < nextTimerId s;
  ids_distinct : NoDup (map timerId (timers s));
  interval_below : forall i, intervalId s = Some i -> i < nextTimerId s;
  interval_timer :
    forall i t, intervalId s = Some i -> In t (timers s) -> timerId t = i ->
      isCompletion t = false;
  active_inFlight : activeSpans s = Z.of_nat (inFlight s)
}.

(** A script in which Start is never clicked on a stopped generator
    that still has requests in flight. *)
Fixpoint noRestartInFlight (script : list Action) (s : State) : Prop :=
  match script with
  | [] => True
  | a :: rest =>
      (a = clickStart -> isRunning s = true \/ inFlight s = O) /\
      noRestartInFlight rest (exec (handle a) s)
  end.

(** ** The page as it loads *)

(** The [load] handler writes the configuration into the input elements
    that exist ([el.value = config.field] stores the number's string
    form); an element that does not exist stays absent. *)
Definition loadFields (hasMin hasMax hasBatch : bool) (c : Config) : Document :=
  {| minIntervalEl := if hasMin then Some (toString (minInterval c)) else None;
     maxIntervalEl := if hasMax then Some (toString (maxInterval c)) else None;
     batchSizeEl := if hasBatch then Some (toString (batchSize c)) else None |}.

(** The integer a run of decimal digits denotes when read after [acc]. *)
Fixpoint uintValue (d : Decimal.uint) (acc : Z) : Z :=
  match d with
  | Decimal.Nil => acc
  | Decimal.D0 l => uintValue l (10 * acc)
  | Decimal.D1 l => uintValue l (10 * acc + 1)
  | Decimal.D2 l => uintValue l (10 * acc + 2)
  | Decimal.D3 l => uintValue l (10 * acc + 3)
  | Decimal.D4 l => uintValue l (10 * acc + 4)
  | Decimal.D5 l => uintValue l (10 * acc + 5)
  | Decimal.D6 l => uintValue l (10 * acc + 6)
  | Decimal.D7 l => uintValue l (10 * acc + 7)
  | Decimal.D8 l => uintValue l (10 * acc + 8)
  | Decimal.D9 l => uintValue l (10 * acc + 9)
  end.

(** [minInterval <= maxInterval]. *)
Definition ordered (c : Config) : Prop := minInterval c <= maxInterval c.

(** The spans a piece of output starts, and those it ends. *)
Definition startedSpans (out : list Effect) : list Span :=
  flat_map (fun e => match e with StartSpan sp _ _ _ => [sp] | _ => [] end) out.

Definition endedSpans (out : list Effect) : list Span :=
  flat_map (fun e => match e with EndSpan sp => [sp] | _ => [] end) out.

(** ** Notions for the properties of whole runs *)

(** The pending timers of [scheduleNext]: the cycles still to come. *)
Definition isCycle (t : Timer) : bool :=
  match callback t with
  | scheduleNextCb => true
  | _ => false
  end.

Definition pendingCycles (s : State) : list Timer := List.filter isCycle (timers s).

(** Timer ids are positive, below the next one to be given out, and
    pairwise distinct. *)
Record numbered (s : State) : Prop := {
  ids_range : forall t, In t (timers s) -> 0 < timerId t < nextTimerId s;
  next_positive : 0 < nextTimerId s;
  ids_unique : NoDup (map timerId (timers s))
}.

(** Between two events of the page: a running generator has exactly one
    cycle pending, the one [intervalId] names; a stopped one has none,
    and [intervalId] is [null]. *)
Record orderly (s : State) : Prop := {
  is_numbered : numbered s;
  cycle_running :
    isRunning s = true ->
    exists t, pendingCycles s = [t] /\ intervalId s = Some (timerId t);
  cycle_stopped :
    isRunning s = false -> pendingCycles s = [] /\ intervalId s = None
}.

(** What an output adds to the [load_test.active_spans] instrument. *)
Definition gaugeDelta (e : Effect) : Z :=
  match e with
  | InstrumentAdd activeSpansGauge v _ => v
  | _ => 0
  end.

Definition gaugeTotal (out : list Effect) : Z :=
  fold_right (fun e acc => gaugeDelta e + acc) 0 out.

(** A log record as [emitLog] builds it for the script's two
    severities: the text agrees with the number, and ['log.source'] is
    the first attribute. *)
Definition wellFormedLog (e : Effect) : bool :=
  match e with
  | LoggerEmit n text _ attrs =>
      (((n =? SeverityNumber.INFO) && String.eqb text "INFO")
       || ((n =? SeverityNumber.ERROR) && String.eqb text "ERROR"))
      && match attrs with
         | (k, AStr v) :: _ => String.eqb k "log.source" && String.eqb v "load-testing"
         | _ => false
         end
  | _ => true
  end.

(** A statement all of whose output satisfies [P]. *)
Definition emitsOnly (P : Effect -> Prop) {A} (m : M A) : Prop :=
  forall s : State, Forall P (effects m s).

(** A request as [generateSpan] makes them. *)
Definition wellFormedRequest (r : Request) : Prop :=
  50 <= duration r <= 549 /\
  In (statusCode r) statusCodes /\
  isError r = (400 <=? statusCode r).

(** The draws are of [[0,1)] and the pending completions are those of
    such requests. *)
Record sane (s : State) : Prop := {
  unit_draws : unitDraws s;
  pending_requests :
    forall t r, In t (timers s) -> callback t = spanEndCb r -> wellFormedRequest r
}.

(** What the instruments and span statuses may be given: a duration of
    [[50, 549]] for the histogram, 1 for the two counters (the error
    counter tagged with an error status), 1 or -1 for the active-spans
    instrument, status code 2 with a message or 1 without. *)
Definition plausible (e : Effect) : bool :=
  match e with
  | InstrumentRecord requestDuration v _ => (50 <=? v) && (v <=? 549)
  | InstrumentRecord _ _ _ => false
  | InstrumentAdd errorCounter v (("status_code", AStr c) :: _) =>
      (v =? 1) && existsb (String.eqb c) ["400"; "404"; "500"]
  | InstrumentAdd errorCounter _ _ => false
  | InstrumentAdd requestCounter v _ => v =? 1
  | InstrumentAdd activeSpansGauge v _ => (v =? 1) || (v =? -1)
  | InstrumentAdd requestDuration _ _ => false
  | SetStatus _ 2 (Some _) => true
  | SetStatus _ 1 None => true
  | SetStatus _ _ _ => false
  | _ => true
  end.

(** [Number.isSafeInteger]: the integers a double holds exactly and
    whose string form is plain decimal digits. *)
Definition isSafeInteger (n : Z) : Prop := - 2 ^ 53 < n < 2 ^ 53.

(** The sequence numbers (['span.number']) of the primary spans an
    output starts, in order. *)
Definition spanNumbers (out : list Effect) : list Z :=
  flat_map
    (fun e =>
       match e with
       | StartSpan _ None _ attrs =>
           flat_map (fun kv => match kv with
                               | ("span.number", ANum n) => [n]
                               | _ => []
                               end) attrs
       | _ => []
       end) out.

End LoadTesting.
Module Backend.

Import stdpp.base stdpp.gmap stdpp.strings.

(** ** The request and the response writer *)

(** One [Read] of [r.Body]: some bytes, or a transport error.  After the
    last one the reader reports [io.EOF]. *)
Inductive ReadResult : Type :=
| Data (p : list Byte.byte)
| ReadError.

Record Request : Type := {
  Method : string;
  URLPath : string;
  RemoteAddr : string;
  Body : list ReadResult
}.

(** [http.Header] with [Set], [Del] and [Get]. *)
Definition headerSet (k v : string) (h : gmap string (list string)) : gmap string (list string) :=
  <[k := [v]]> h.
Definition headerDel (k : string) (h : gmap string (list string)) : gmap string (list string) :=
  delete k h.
Definition headerGet (k : string) (h : gmap string (list string)) : string :=
  match h !! k with
  | Some (v :: _) => v
  | _ => ""
  end.

(** An [http.ResponseWriter]: the header map the handler edits, the
    status line and header sent by the first [WriteHeader], the body
    written after it, and how often [WriteHeader] was called. *)
Record ResponseWriter : Type := {
  header : gmap string (list string);
  sent : option (Z * gmap string (list string));
  written : list Byte.byte;
  writeHeaderCalls : nat
}.

Definition newResponseWriter : ResponseWriter :=
  {| header := ∅; sent := None; written := []; writeHeaderCalls := O |}.

Definition setHeader (k v : string) (w : ResponseWriter) : ResponseWriter :=
  {| header := headerSet k v (header w); sent := sent w; written := written w;
     writeHeaderCalls := writeHeaderCalls w |}.
Definition delHeader (k : string) (w : ResponseWriter) : ResponseWriter :=
  {| header := headerDel k (header w); sent := sent w; written := written w;
     writeHeaderCalls := writeHeaderCalls w |}.

(** [w.WriteHeader(code)]: the first call sends the status and the
    header as it stands; a later one is superfluous and changes nothing
    on the wire. *)
Definition WriteHeader (code : Z) (w : ResponseWriter) : ResponseWriter :=
  {| header := header w;
     sent := match sent w with Some r => Some r | None => Some (code, header w) end;
     written := written w;
     writeHeaderCalls := S (writeHeaderCalls w) |}.

(** Whether a response of this status may carry a body. *)
Definition bodyAllowedForStatus (code : Z) : bool :=
  negb (((100 <=? code) && (code <=? 199)) || (code =? 204) || (code =? 304))%Z.

(** [w.Write(p)]: sends [200] first when no status is out yet. *)
Definition Write (p : list Byte.byte) (w : ResponseWriter) : ResponseWriter :=
  let w1 := match sent w with
            | Some _ => w
            | None =>
                {| header := header w; sent := Some (200%Z, header w);
                   written := written w; writeHeaderCalls := writeHeaderCalls w |}
            end in
  match sent w1 with
  | Some (code, _) =>
      if bodyAllowedForStatus code
      then {| header := header w1; sent := sent w1; written := written w1 ++ p;
              writeHeaderCalls := writeHeaderCalls w1 |}
      else w1
  | None => w1
  end.

Definition bytes (s : string) : list Byte.byte := list_byte_of_string s.

(** [http.Error(w, error, code)]. *)
Definition Error (error : string) (code : Z) (w : ResponseWriter) : ResponseWriter :=
  let w := delHeader "Content-Length" w in
  let w := setHeader "Content-Type" "text/plain; charset=utf-8" w in
  let w := setHeader "X-Content-Type-Options" "nosniff" w in
  let w := WriteHeader code w in
  Write (bytes (error +:+ String "010" "")) w.

(** [io.Copy(io.Discard, body)]: reads until [io.EOF] or an error and
    returns the number of bytes read, whether an error stopped it, and
    what is left unread. *)
Fixpoint ioCopyDiscard (body : list ReadResult) (n : Z) : Z * bool * list ReadResult :=
  match body with
  | [] => (n, false, [])
  | Data p :: rest => ioCopyDiscard rest (n + Z.of_nat (length p))%Z
  | ReadError :: rest => (n, true, rest)
  end.

Definition formatInt (n : Z) : string := NilZero.string_of_int (Z.to_int n).

(** ** The handler *)

Definition MethodOptions : string := "OPTIONS".
Definition MethodPost : string := "POST".
Definition StatusOK : Z := 200.
Definition StatusNoContent : Z := 204.
Definition StatusNotFound : Z := 404.
Definition StatusMethodNotAllowed : Z := 405.

(** What serving one request leaves behind. *)
Record Served : Type := {
  response : ResponseWriter;
  unread : list ReadResult;    (* what was not read from the body *)
  logged : list string         (* lines given to [log.Printf] *)
}.

(** The function [registerEndpoint] installs for a path. *)
Definition handler (r : Request) (w : ResponseWriter) : Served :=
  let w := setHeader "Access-Control-Allow-Origin" "*" w in
  let w := setHeader "Access-Control-Allow-Methods" "POST, OPTIONS" w in
  let w := setHeader "Access-Control-Allow-Headers" "*" w in
  let w := setHeader "Access-Control-Max-Age" "86400" w in
  if String.eqb (Method r) MethodOptions then
    {| response := WriteHeader StatusNoContent w; unread := Body r; logged := [] |}
  else if negb (String.eqb (Method r) MethodPost) then
    let w := setHeader "Allow" MethodPost w in
    {| response := Error "method not allowed" StatusMethodNotAllowed w;
       unread := Body r; logged := [] |}
  else
    let '(n, _, rest) := ioCopyDiscard (Body r) 0 in
    let line := "request: method=" +:+ Method r +:+ " path=" +:+ URLPath r
                +:+ " size_bytes=" +:+ formatInt n +:+ " remote=" +:+ RemoteAddr r in
    let w := WriteHeader StatusOK w in
    {| response := Write (bytes "{}") w; unread := rest; logged := [line] |}.

(** The paths [main] registers. *)
Definition routes : list string := [ "/v1/traces"; "/v1/logs"; "/v1/metrics" ].

(** The mux: a registered path (matched exactly, none ends in a slash)
    gets the handler, any other path [http.NotFound]. *)
Definition serveHTTP (r : Request) : Served :=
  if existsb (String.eqb (URLPath r)) routes
  then handler r newResponseWriter
  else {| response := Error "404 page not found" StatusNotFound newResponseWriter;
          unread := Body r; logged := [] |}.

(** The response as the client sees it. *)
Definition status (sv : Served) : option Z := fst <$> sent (response sv).
Definition sentHeader (k : string) (sv : Served) : option (list string) :=
  match sent (response sv) with
  | Some (_, h) => h !! k
  | None => None
  end.
Definition body (sv : Served) : list Byte.byte := written (response sv).

(** The bytes a body holds, its reads taken together. *)
Fixpoint bodyBytes (b : list ReadResult) : list Byte.byte :=
  match b with
  | [] => []
  | Data p :: rest => p ++ bodyBytes rest
  | ReadError :: rest => bodyBytes rest
  end.

Definition readsCleanly (b : list ReadResult) : bool :=
  forallb (fun x => match x with Data _ => true | ReadError => false end) b.

(** The two scenarios of the collector: a submission of 100 bytes in
    two reads, and a preflight. *)
Definition post100 : Request :=
  {| Method := "POST"; URLPath := "/v1/traces"; RemoteAddr := "127.0.0.1:51234";
     Body := [Data (repeat Byte.x7b 60); Data (repeat Byte.x7d 40)] |}.

Definition preflight : Request :=
  {| Method := "OPTIONS"; URLPath := "/v1/metrics"; RemoteAddr := "127.0.0.1:51234";
     Body := [] |}.

End Backend.
(** * Properties of the generator *)

Module LoadTestingSpec.

Import LoadTesting.

(** ** Laws of the monad *)

Section MonadLaws.

Context {A B : Type}.

Lemma bind_run (m : M A) (k : A -> M B) (s : State) :
  bind m k s =
    (result (k (result m s)) (exec m s),
     exec (k (result m s)) (exec m s),
     (effects m s ++ effects (k (result m s)) (exec m s))%list).
Proof.
  unfold bind, result, exec, effects.
  destruct (m s) as [[a s1] o1]; cbn.
  destruct (k a s1) as [[b s2] o2]; reflexivity.
Qed.

Lemma exec_bind (m : M A) (k : A -> M B) (s : State) :
  exec (bind m k) s = exec (k (result m s)) (exec m s).
Proof. unfold exec at 1. rewrite bind_run. reflexivity. Qed.

Lemma effects_bind (m : M A) (k : A -> M B) (s : State) :
  effects (bind m k) s = (effects m s ++ effects (k (result m s)) (exec m s))%list.
Proof. unfold effects at 1. rewrite bind_run. reflexivity. Qed.

Lemma result_bind (m : M A) (k : A -> M B) (s : State) :
  result (bind m k) s = result (k (result m s)) (exec m s).
Proof. unfold result at 1. rewrite bind_run. reflexivity. Qed.

End MonadLaws.

Create Rewrite HintDb monad.
#[local] Hint Rewrite @exec_bind @effects_bind @result_bind : monad.

Ltac monad_simpl := autorewrite with monad; cbn [exec effects result ret gets modify emit fst snd].

(** ** Draws and floors *)

Lemma floorScaled_nonneg (x : Q) (n : Z) :
  (0 <= x)%Q -> 0 <= n -> 0 <= floorScaled x n.
Proof.
  intros Hx Hn. unfold floorScaled.
  change 0 with (Qfloor (inject_Z 0)).
  apply Qfloor_resp_le.
  apply Qmult_le_0_compat; [exact Hx|].
  change 0%Q with (inject_Z 0). rewrite <- Zle_Qle. exact Hn.
Qed.

Lemma floorScaled_lt (x : Q) (n : Z) :
  (x < 1)%Q -> 0 < n -> floorScaled x n < n.
Proof.
  intros Hx Hn. unfold floorScaled.
  rewrite Zlt_Qlt.
  apply Qle_lt_trans with (y := (x * inject_Z n)%Q); [apply Qfloor_le|].
  rewrite <- (Qmult_1_l (inject_Z n)) at 2.
  apply Qmult_lt_compat_r; [|exact Hx].
  change 0%Q with (inject_Z 0). rewrite <- Zlt_Qlt. exact Hn.
Qed.

Lemma floorScaled_zero (x : Q) : floorScaled x 0 = 0.
Proof.
  unfold floorScaled. rewrite (Qfloor_comp _ (inject_Z 0)); [apply Qfloor_Z|].
  apply Qmult_0_r.
Qed.

Lemma floorScaled_bounds (x : Q) (n : Z) :
  (0 <= x < 1)%Q -> 0 < n -> 0 <= floorScaled x n <= n - 1.
Proof.
  intros [H0 H1] Hn.
  pose proof (floorScaled_nonneg x n H0 ltac:(lia)).
  pose proof (floorScaled_lt x n H1 Hn). lia.
Qed.

(** ** The loop that attaches events *)

Lemma addEvent_exec (sp : Span) (dur numEvents i : Z) (s : State) :
  exec (addEvent sp dur numEvents i) s = withDraws (S (draws s)) s.
Proof. reflexivity. Qed.

Lemma addEvent_effects (sp : Span) (dur numEvents i : Z) (s : State) :
  effects (addEvent sp dur numEvents i) s = [eventOf sp dur numEvents i (rng s (draws s))].
Proof. reflexivity. Qed.

Lemma addEvents_exec (sp : Span) (dur numEvents : Z) (n : nat) :
  forall (i : Z) (s : State),
    exec (forLoop n i (addEvent sp dur numEvents)) s = withDraws (n + draws s) s.
Proof.
  induction n as [|n IH]; intros i s.
  - destruct s; reflexivity.
  - cbn [forLoop]. rewrite exec_bind, IH, addEvent_exec.
    cbn [draws withDraws]. rewrite Nat.add_succ_r. reflexivity.
Qed.

Lemma addEvents_effects (sp : Span) (dur numEvents : Z) (n : nat) :
  forall (i : Z) (s : State),
    effects (forLoop n i (addEvent sp dur numEvents)) s =
      map (fun k => eventOf sp dur numEvents (i + Z.of_nat k) (rng s (k + draws s)%nat))
        (seq 0 n).
Proof.
  induction n as [|n IH]; intros i s.
  - reflexivity.
  - cbn [forLoop]. rewrite effects_bind, IH, addEvent_exec, addEvent_effects.
    cbn [seq map app withDraws draws rng].
    rewrite Z.add_0_r. cbn [Nat.add]. f_equal.
    rewrite <- seq_shift, map_map.
    apply map_ext. intros k.
    rewrite Nat2Z.inj_succ, Nat.add_succ_r. cbn [Nat.add].
    f_equal; lia.
Qed.

Lemma run_eta {A} (m : M A) (s : State) : m s = (result m s, exec m s, effects m s).
Proof. unfold result, exec, effects. destruct (m s) as [[a s1] o]. reflexivity. Qed.

Lemma addEvents_run (sp : Span) (dur numEvents : Z) (n : nat) (i : Z) (s : State) :
  forLoop n i (addEvent sp dur numEvents) s =
    (tt, withDraws (n + draws s) s,
     map (fun k => eventOf sp dur numEvents (i + Z.of_nat k) (rng s (k + draws s)%nat)) (seq 0 n)).
Proof.
  rewrite run_eta, addEvents_exec, addEvents_effects.
  destruct (result _ s). reflexivity.
Qed.

(** ** [generateSpan] in closed form *)

Ltac state_simpl :=
  cbv beta iota delta
      [config isRunning intervalId spanCount activeSpans now timers nextTimerId
       nextSpan rng draws withConfig withIsRunning withIntervalId withSpanCount
       withActiveSpans withNow withTimers withNextTimerId withNextSpan withDraws
       nesting withNesting endpoint method statusCode duration isError span];
  cbn [fst snd app Nat.add Z.add].

Lemma generateSpan_run (s : State) :
  generateSpan s = (tt, generatedState s, generatedEffects s).
Proof.
  unfold generatedState, generatedEffects, generatedEvents, childTimers, primaryTimer,
    opensChild, numEventsOf, requestOf, draw.
  destruct s as [cfg run iid sc act nw ts ntid nsp rg dr nst].
  unfold generateSpan, randomElement, randomDuration, emitLog, bind, random, ret,
    gets, modify, emit, startSpan.
  state_simpl. rewrite addEvents_run. state_simpl.
  change (getSeverityText SeverityNumber.INFO) with "INFO".
  destruct (Qlt_le_dec _ _) as [Hc|Hc]; unfold setTimeout; state_simpl;
    rewrite <- ?app_assoc; reflexivity.
Qed.

Lemma generateSpan_exec (s : State) : exec generateSpan s = generatedState s.
Proof. unfold exec. rewrite generateSpan_run. reflexivity. Qed.

Lemma generateSpan_effects (s : State) : effects generateSpan s = generatedEffects s.
Proof. unfold effects. rewrite generateSpan_run. reflexivity. Qed.

Lemma eventOf_not_stopped (l : list Effect) :
  Forall (fun e => isAddEvent e = true) l -> List.filter isStoppedEvent l = [].
Proof.
  induction 1 as [|e l He _ IH]; [reflexivity|].
  cbn [List.filter]. rewrite IH. destruct e; try discriminate He; reflexivity.
Qed.

Lemma generatedEvents_are_events (s : State) :
  Forall (fun e => isAddEvent e = true) (generatedEvents s).
Proof.
  unfold generatedEvents. apply Forall_forall. intros e He.
  apply in_map_iff in He. destruct He as [k [<- _]]. reflexivity.
Qed.

Lemma generateSpan_no_stopped (s : State) :
  List.filter isStoppedEvent (effects generateSpan s) = [].
Proof.
  rewrite generateSpan_effects. unfold generatedEffects.
  rewrite !filter_app, (eventOf_not_stopped _ (generatedEvents_are_events s)).
  destruct (opensChild s); reflexivity.
Qed.

(** ** The batch loop *)

Lemma forLoop_generateSpan_frame (n : nat) :
  forall (i : Z) (s : State),
    let s' := exec (forLoop n i (fun _ => generateSpan)) s in
    config s' = config s /\ isRunning s' = isRunning s /\
    intervalId s' = intervalId s /\ now s' = now s /\ rng s' = rng s /\
    spanCount s' = spanCount s + Z.of_nat n /\
    activeSpans s' = activeSpans s + Z.of_nat n.
Proof.
  induction n as [|n IH]; intros i s; cbn zeta.
  - cbn [forLoop exec ret fst snd Z.of_nat]. repeat split; lia.
  - cbn [forLoop]. rewrite exec_bind, generateSpan_exec.
    destruct (IH (i + 1) (generatedState s)) as (Hc & Hr & Hi & Hn & Hg & Hs & Ha).
    rewrite Hc, Hr, Hi, Hn, Hg, Hs, Ha. cbn [generatedState config isRunning intervalId now rng spanCount activeSpans].
    repeat split; lia.
Qed.

Lemma forLoop_generateSpan_no_stopped (n : nat) :
  forall (i : Z) (s : State),
    List.filter isStoppedEvent (effects (forLoop n i (fun _ => generateSpan)) s) = [].
Proof.
  induction n as [|n IH]; intros i s.
  - reflexivity.
  - cbn [forLoop]. rewrite effects_bind, filter_app, generateSpan_no_stopped, IH.
    reflexivity.
Qed.

(** ** [scheduleNext], [startLoadTest] and [stopLoadTest] *)

Lemma scheduleNext_exec (s : State) :
  isRunning s = true ->
  exec scheduleNext s =
    let sb := afterBatch s in
    withIntervalId (Some (nextTimerId sb))
      (withNextTimerId (nextTimerId sb + 1)
         (withTimers (timers sb ++ [nextCycleTimer s])
            (withDraws (S (draws sb)) sb))).
Proof.
  intros Hrun. unfold scheduleNext.
  rewrite exec_bind. cbn [result gets fst snd exec]. rewrite Hrun. cbn [negb].
  rewrite exec_bind. cbn [result gets fst snd exec].
  rewrite exec_bind. fold (batch (Z.to_nat (batchSize (config s)))). fold (afterBatch s).
  unfold nextCycleTimer. cbn zeta.
  destruct (afterBatch s) as [cfg run iid sc act nw ts ntid nsp rg dr nst].
  reflexivity.
Qed.

Lemma scheduleNext_effects (s : State) :
  isRunning s = true ->
  effects scheduleNext s = effects (batch (Z.to_nat (batchSize (config s)))) s.
Proof.
  intros Hrun. unfold scheduleNext.
  rewrite effects_bind. cbn [result gets fst snd exec effects app]. rewrite Hrun. cbn [negb].
  rewrite effects_bind. cbn [result gets fst snd exec effects app].
  rewrite effects_bind. fold (batch (Z.to_nat (batchSize (config s)))).
  rewrite <- (app_nil_r (effects (batch _) s)) at 2. f_equal.
Qed.

Lemma scheduleNext_stopped (s : State) :
  isRunning s = false -> scheduleNext s = (tt, s, []).
Proof. intros H. unfold scheduleNext, bind, gets. rewrite H. reflexivity. Qed.

Lemma startLoadTest_exec (s : State) :
  isRunning s = false -> exec startLoadTest s = exec scheduleNext (started s).
Proof.
  intros Hrun. unfold startLoadTest, updateUI, emitLog.
  rewrite exec_bind. cbn [result gets fst snd exec]. rewrite Hrun.
  repeat (rewrite exec_bind; cbn [result gets modify emit fst snd exec]).
  reflexivity.
Qed.

Lemma startLoadTest_effects (s : State) :
  isRunning s = false ->
  effects startLoadTest s =
    ([ LoggerEmit SeverityNumber.INFO "INFO" "Load test started"
         [("log.source", AStr "load-testing"); ("test.action", AStr "start")];
       ConsoleLog "Starting continuous load test...";
       UpdateUI true 0 ] ++ effects scheduleNext (started s))%list.
Proof.
  intros Hrun. unfold startLoadTest, updateUI, emitLog.
  rewrite effects_bind. cbn [result gets fst snd exec effects app]. rewrite Hrun.
  repeat (rewrite effects_bind; cbn [result gets modify emit fst snd exec effects app]).
  reflexivity.
Qed.

Lemma stopLoadTest_effects (s : State) :
  isRunning s = true ->
  effects stopLoadTest s =
    [ stoppedEvent (spanCount s);
      ConsoleLog ("Load test stopped. Total spans generated: " ++ toString (spanCount s));
      UpdateUI false (spanCount s) ].
Proof.
  intros Hrun. unfold stopLoadTest, updateUI, emitLog, clearTimeout, removeTimer.
  destruct s as [cfg run iid sc act nw ts ntid nsp rg dr nst]. cbn in Hrun. subst run.
  destruct iid as [[|p|p]|]; reflexivity.
Qed.

Lemma stopLoadTest_spanCount (s : State) :
  spanCount (exec stopLoadTest s) = spanCount s.
Proof.
  unfold stopLoadTest, updateUI, emitLog, clearTimeout, removeTimer.
  destruct s as [cfg run iid sc act nw ts ntid nsp rg dr nst].
  destruct run; [|reflexivity].
  destruct iid as [[|p|p]|]; reflexivity.
Qed.

Lemma started_cycle (s : State) :
  let s' := exec scheduleNext (started s) in
  isRunning s' = true /\
  spanCount s' = Z.max 0 (batchSize (config s)) /\
  activeSpans s' = Z.max 0 (batchSize (config s)) /\
  config s' = config s.
Proof.
  cbn zeta. rewrite scheduleNext_exec by reflexivity. cbn zeta.
  unfold afterBatch, batch.
  destruct (forLoop_generateSpan_frame (Z.to_nat (batchSize (config (started s)))) 0 (started s))
    as (Hc & Hr & _ & _ & _ & Hs & Ha).
  cbn [started withActiveSpans withSpanCount withIsRunning config isRunning spanCount activeSpans] in *.
  cbn [withIntervalId withNextTimerId withTimers withDraws config isRunning spanCount activeSpans].
  rewrite Hc, Hr, Hs, Ha. repeat split; lia.
Qed.

(** ** Stopping right after starting *)

(** C1 with total 0 does not hold on the default configuration:
    [startLoadTest] runs the first cycle itself, so one request has been
    generated when [stopLoadTest] runs and the "stopped" event carries
    total 1, not 0. *)
Lemma stop_right_after_start_is_not_zero :
  ~ (spanCount (exec (startLoadTest ;; stopLoadTest) (initialState (fun _ => 0%Q))) = 0 /\
     List.filter isStoppedEvent
       (effects (startLoadTest ;; stopLoadTest) (initialState (fun _ => 0%Q)))
     = [stoppedEvent 0]).
Proof. intros [H _]. vm_compute in H. discriminate H. Qed.

(** C1 (amended): when [stop()] is called right after [start()] on a
    stopped generator, before any timer has fired, the first batch has
    already been generated: the total count is [batchSize] (0 for a
    batch size below 1, which no validated update produces), and exactly
    one "stopped" event is emitted, carrying that total. *)
Theorem stop_right_after_start (s : State) :
  isRunning s = false ->
  spanCount (exec (startLoadTest ;; stopLoadTest) s) = Z.max 0 (batchSize (config s)) /\
  List.filter isStoppedEvent (effects (startLoadTest ;; stopLoadTest) s)
  = [stoppedEvent (Z.max 0 (batchSize (config s)))].
Proof.
  intros Hrun.
  destruct (started_cycle s) as (Hr & Hs & _ & _).
  rewrite exec_bind, effects_bind, startLoadTest_exec by exact Hrun.
  rewrite stopLoadTest_spanCount, Hs. split; [reflexivity|].
  rewrite startLoadTest_effects by exact Hrun.
  rewrite scheduleNext_effects by reflexivity.
  rewrite stopLoadTest_effects by exact Hr.
  rewrite Hs, !filter_app. unfold batch.
  rewrite forLoop_generateSpan_no_stopped. reflexivity.
Qed.

Lemma stop_right_after_start_witness :
  isRunning (initialState (fun _ => 0%Q)) = false /\
  spanCount (exec (startLoadTest ;; stopLoadTest) (initialState (fun _ => 0%Q))) = 1 /\
  List.filter isStoppedEvent
    (effects (startLoadTest ;; stopLoadTest) (initialState (fun _ => 0%Q)))
  = [stoppedEvent 1].
Proof.
  split; [reflexivity|].
  exact (stop_right_after_start (initialState (fun _ => 0%Q)) eq_refl).
Defined.

(** ** The active-span count *)

Lemma spanEnd_run (r : Request) (s : State) :
  spanEnd r s =
    (tt, withActiveSpans (activeSpans s - 1) s, completionEffects r (spanCount s)).
Proof.
  unfold spanEnd, completionEffects, emitLog.
  destruct s as [cfg run iid sc act nw ts ntid nsp rg dr nst].
  destruct r as [ep me st du ie sp].
  change (getSeverityText SeverityNumber.ERROR) with "ERROR".
  change (getSeverityText SeverityNumber.INFO) with "INFO".
  unfold bind, emit, modify, gets, ret. state_simpl.
  destruct ie; destruct (sc mod 10 =? 0); reflexivity.
Qed.

Lemma spanEnd_effects (r : Request) (s : State) :
  effects (spanEnd r) s = completionEffects r (spanCount s).
Proof. unfold effects. rewrite spanEnd_run. reflexivity. Qed.

Lemma spanEnd_activeSpans (r : Request) (s : State) :
  activeSpans (exec (spanEnd r) s) = activeSpans s - 1.
Proof. unfold exec. rewrite spanEnd_run. reflexivity. Qed.

Lemma generateSpan_activeSpans (s : State) :
  activeSpans (exec generateSpan s) = activeSpans s + 1.
Proof. rewrite generateSpan_exec. reflexivity. Qed.

(** A request taken alone is net zero: its completion takes back the
    one its generation added. *)
Lemma generate_then_complete_net_zero (s : State) :
  activeSpans (exec (generateSpan ;; spanEnd (requestOf s)) s) = activeSpans s.
Proof.
  rewrite exec_bind, spanEnd_activeSpans, generateSpan_activeSpans. lia.
Qed.

(** C3: the count of active spans goes negative.  Start, stop and start
    again while the first request is in flight: the restart sets
    [activeSpans] back to 0, the second run generates one request, and
    the two completions (both due at 50 ms) bring the count to -1. *)
Theorem activeSpans_negative_after_restart :
  activeSpans
    (exec (run [clickStart; clickStop; clickStart; timerFired; timerFired])
       (initialState (fun _ => 0%Q)))
  = -1.
Proof. vm_compute. reflexivity. Qed.

(** ** Surfacing the trace id *)

(** The completion callback tests the global [spanCount] as it stands
    when the callback runs. *)
Lemma spanEnd_traceId (r : Request) (s : State) :
  List.filter isConsoleTraceId (effects (spanEnd r) s)
  = if spanCount s mod 10 =? 0 then [ConsoleTraceId (span r)] else [].
Proof.
  rewrite spanEnd_effects. unfold completionEffects.
  rewrite !filter_app.
  destruct (isError r); destruct (spanCount s mod 10 =? 0); reflexivity.
Qed.

(** C4: with a batch of 10, the request numbered 1 (span 0) completes
    when [spanCount] is 10: its console line reads "Span #10" and its
    trace id is surfaced, though 1 is no multiple of 10. *)
Theorem traceId_surfaced_for_request_1 :
  let doc := {| minIntervalEl := None; maxIntervalEl := None; batchSizeEl := Some "10" |} in
  let script := [inputConfig doc; clickStart] in
  let s := exec (run script) (initialState (fun _ => 0%Q)) in
  In (StartSpan 0%nat None "GET /api/users"
        [("http.method", AStr "GET");
         ("http.url", AStr "https://example.com/api/users");
         ("http.route", AStr "/api/users");
         ("http.status_code", ANum 200);
         ("span.number", ANum 1)])
     (effects (run script) (initialState (fun _ => 0%Q))) /\
  effects timerFires s =
    [ SetStatus 0%nat 1 None;
      LoggerEmit 9 "INFO" "Completed GET /api/users in 50ms"
        [("log.source", AStr "load-testing"); ("http.method", AStr "GET");
         ("http.url", AStr "/api/users"); ("duration_ms", ANum 50)];
      InstrumentRecord requestDuration 50
        [("method", AStr "GET"); ("endpoint", AStr "/api/users");
         ("status_code", AStr "200")];
      EndSpan 0%nat;
      InstrumentAdd activeSpansGauge (-1) [];
      ConsoleLog "[Span #10] GET /api/users -> 200 (50ms)";
      ConsoleTraceId 0%nat ].
Proof.
  cbv zeta. split.
  - vm_compute. tauto.
  - vm_compute. reflexivity.
Qed.

(** With a batch of 11 the request numbered 10 completes when
    [spanCount] is 11, and no trace id is surfaced for any of the 11. *)
Lemma traceId_not_surfaced_for_request_10 :
  let doc := {| minIntervalEl := None; maxIntervalEl := None; batchSizeEl := Some "11" |} in
  let s := exec (run [inputConfig doc; clickStart]) (initialState (fun _ => 0%Q)) in
  spanCount s = 11 /\
  List.filter isConsoleTraceId (effects (run (repeat timerFired 11)) s) = [] /\
  activeSpans (exec (run (repeat timerFired 11)) s) = 0.
Proof. vm_compute. repeat split; reflexivity. Qed.

(** ** The delay before the next cycle *)

Lemma nextIntervalOf_bounds (c : Config) (x : Q) :
  (0 <= x < 1)%Q ->
  minInterval c <= maxInterval c ->
  minInterval c <= nextIntervalOf c x <= maxInterval c /\
  (minInterval c < maxInterval c -> nextIntervalOf c x < maxInterval c) /\
  (minInterval c = maxInterval c -> nextIntervalOf c x = minInterval c).
Proof.
  intros Hx Hle. unfold nextIntervalOf.
  destruct (Z.eq_dec (minInterval c) (maxInterval c)) as [Heq|Hne].
  - rewrite Heq, Z.sub_diag, floorScaled_zero. lia.
  - pose proof (floorScaled_bounds x (maxInterval c - minInterval c) Hx ltac:(lia)).
    lia.
Qed.

(** With [maxInterval] below [minInterval] the range is negative and
    the delay lands between the two in the wrong order. *)
Lemma nextIntervalOf_inverted :
  nextIntervalOf {| minInterval := 2000; maxInterval := 1000; batchSize := 1 |} (1 # 2) = 1500.
Proof. reflexivity. Qed.

(** For an ordered configuration the formula is the claimed one: a cycle
    of the running generator sets, after its batch, one timer for the
    next cycle, and with [minInterval <= maxInterval] the delay it passes
    lies in [[minInterval, maxInterval]] for every draw of [[0,1)], and
    is [minInterval] when the two are equal. *)
Lemma next_cycle_delay_when_ordered (s : State) :
  isRunning s = true ->
  unitDraws s ->
  minInterval (config s) <= maxInterval (config s) ->
  exists (delay : Z) (t : Timer) (ts : list Timer),
    timers (exec scheduleNext s) = (ts ++ [t])%list /\
    callback t = scheduleNextCb /\
    due t = (now s + inject_Z delay)%Q /\
    intervalId (exec scheduleNext s) = Some (timerId t) /\
    minInterval (config s) <= delay <= maxInterval (config s) /\
    (minInterval (config s) = maxInterval (config s) -> delay = minInterval (config s)).
Proof.
  intros Hrun Hdraws Hle.
  rewrite scheduleNext_exec by exact Hrun. cbn zeta.
  destruct (forLoop_generateSpan_frame (Z.to_nat (batchSize (config s))) 0 s)
    as (Hc & _ & _ & Hn & Hg & _ & _).
  fold (batch (Z.to_nat (batchSize (config s)))) in Hc, Hn, Hg.
  fold (afterBatch s) in Hc, Hn, Hg.
  exists (nextIntervalOf (config s) (rng s (draws (afterBatch s)))),
         (nextCycleTimer s), (timers (afterBatch s)).
  destruct (nextIntervalOf_bounds (config s) (rng s (draws (afterBatch s)))
              (Hdraws _) Hle) as (Hb & _ & He).
  unfold nextCycleTimer. cbn zeta. cbn [callback due timerId].
  rewrite Hc, Hn, Hg.
  split; [reflexivity|]. split; [reflexivity|]. split; [reflexivity|].
  split; [reflexivity|]. split; [exact Hb | exact He].
Qed.

Lemma next_cycle_delay_when_ordered_witness :
  exists (delay : Z) (t : Timer) (ts : list Timer),
    timers (exec scheduleNext (started (initialState (fun _ => 1 # 2)))) = (ts ++ [t])%list /\
    callback t = scheduleNextCb /\
    due t = (0 + inject_Z delay)%Q /\
    intervalId (exec scheduleNext (started (initialState (fun _ => 1 # 2)))) = Some (timerId t) /\
    100 <= delay <= 1000 /\
    (100 = 1000 -> delay = 100).
Proof.
  apply (next_cycle_delay_when_ordered (started (initialState (fun _ => 1 # 2)))).
  - reflexivity.
  - intros n. cbn. split; [discriminate | reflexivity].
  - cbn. lia.
Defined.

(** C8: the delay is not always within [[minInterval, maxInterval]].
    After an input event with the fields 2000, 1000 and 1 the
    configuration holds [minInterval = 2000] above [maxInterval = 1000]
    (the defect of C2), and the cycle that a click on Start runs with
    the draw 1/2 sets the timer of the next cycle with the delay
    [floor(0.5 * -1000) + 2000 = 1500]: below [minInterval]. *)
Theorem next_cycle_delay_below_minInterval :
  let doc := {| minIntervalEl := Some "2000"; maxIntervalEl := Some "1000";
                batchSizeEl := Some "1" |} in
  let s := exec (run [inputConfig doc; clickStart]) (initialState (fun _ => 1 # 2)) in
  isRunning s = true /\
  minInterval (config s) = 2000 /\
  maxInterval (config s) = 1000 /\
  exists (t : Timer) (delay : Z),
    pendingCycles s = [t] /\
    intervalId s = Some (timerId t) /\
    due t = (now s + inject_Z delay)%Q /\
    fires t = due t /\
    delay = 1500 /\
    delay < minInterval (config s).
Proof.
  cbv zeta. split; [reflexivity|]. split; [reflexivity|]. split; [reflexivity|].
  eexists. exists 1500. split; [vm_compute; reflexivity|].
  split; [reflexivity|]. split; [reflexivity|]. split; [reflexivity|].
  split; [reflexivity | vm_compute; reflexivity].
Qed.

(** ** The simulated request *)

Lemma generateSpan_timers (s : State) :
  timers (exec generateSpan s) = (timers s ++ childTimers s ++ [primaryTimer s])%list.
Proof. rewrite generateSpan_exec. reflexivity. Qed.

Lemma duration_range (s : State) :
  unitDraws s -> 50 <= duration (requestOf s) <= 549.
Proof.
  intros Hdraws. unfold requestOf, draw. cbn [duration].
  pose proof (floorScaled_bounds (rng s (3 + draws s)) 500 (Hdraws _) ltac:(lia)).
  lia.
Qed.

Lemma numEvents_range (s : State) :
  unitDraws s -> 1 <= numEventsOf s <= 3.
Proof.
  intros Hdraws. unfold numEventsOf, draw.
  pose proof (floorScaled_bounds (rng s (4 + draws s)) 3 (Hdraws _) ltac:(lia)).
  lia.
Qed.

Lemma generateSpan_events (s : State) :
  List.filter isAddEvent (effects generateSpan s) = generatedEvents s.
Proof.
  rewrite generateSpan_effects. unfold generatedEffects. cbn zeta.
  rewrite !filter_app. cbn [List.filter isAddEvent app].
  assert (H : List.filter isAddEvent (generatedEvents s) = generatedEvents s).
  { apply forallb_filter_id. apply forallb_forall. apply Forall_forall.
    apply generatedEvents_are_events. }
  rewrite H. destruct (opensChild s); cbn [List.filter isAddEvent]; apply app_nil_r.
Qed.

Lemma generatedEvents_length (s : State) :
  List.length (generatedEvents s) = Z.to_nat (numEventsOf s).
Proof. unfold generatedEvents. rewrite length_map, length_seq. reflexivity. Qed.

Lemma generatedEvents_nth (s : State) (i : Z) :
  0 <= i < numEventsOf s ->
  nth_error (generatedEvents s) (Z.to_nat i)
  = Some (eventOf (nextSpan s) (duration (requestOf s)) (numEventsOf s) i
            (rng s (Z.to_nat i + (5 + draws s))%nat)).
Proof.
  intros Hi. unfold generatedEvents.
  rewrite nth_error_map, nth_error_seq.
  destruct (Nat.ltb_spec (Z.to_nat i) (Z.to_nat (numEventsOf s))) as [_|Hge]; [|lia].
  cbn [option_map Nat.add]. rewrite Z2Nat.id by lia. reflexivity.
Qed.

(** C7: [generateSpan] attaches between 1 and 3 events to the primary
    span (for draws in [[0,1)]); the event at index [i] carries
    ['event.index' = i] and the label
    [floor(duration * (i+1) / (numEvents+1))] followed by "ms", where
    [duration] is the one the completion timer is set with. *)
Theorem span_events (s : State) :
  unitDraws s ->
  exists (n : Z) (r : Request) (t : Timer) (cs : list Timer),
    timers (exec generateSpan s) = (timers s ++ cs ++ [t])%list /\
    callback t = spanEndCb r /\
    1 <= n <= 3 /\
    List.length (List.filter isAddEvent (effects generateSpan s)) = Z.to_nat n /\
    forall i : Z, 0 <= i < n ->
      exists name : string,
        nth_error (List.filter isAddEvent (effects generateSpan s)) (Z.to_nat i)
        = Some (AddEvent (span r) name
                  [("event.index", ANum i);
                   ("timestamp.relative",
                    AStr (toString ((duration r * (i + 1)) / (n + 1)) ++ "ms"))]).
Proof.
  intros Hdraws.
  exists (numEventsOf s), (requestOf s), (primaryTimer s), (childTimers s).
  rewrite generateSpan_events, generatedEvents_length.
  repeat split.
  - apply generateSpan_timers.
  - apply (numEvents_range s Hdraws).
  - apply (numEvents_range s Hdraws).
  - intros i Hi. rewrite (generatedEvents_nth s i Hi). unfold eventOf.
    eexists. reflexivity.
Qed.

Lemma span_events_witness :
  exists (n : Z) (r : Request) (t : Timer) (cs : list Timer),
    timers (exec generateSpan (initialState (fun _ => 1 # 2)))
    = (timers (initialState (fun _ => 1 # 2)) ++ cs ++ [t])%list /\
    callback t = spanEndCb r /\
    1 <= n <= 3 /\
    List.length (List.filter isAddEvent (effects generateSpan (initialState (fun _ => 1 # 2))))
    = Z.to_nat n /\
    forall i : Z, 0 <= i < n ->
      exists name : string,
        nth_error (List.filter isAddEvent (effects generateSpan (initialState (fun _ => 1 # 2))))
          (Z.to_nat i)
        = Some (AddEvent (span r) name
                  [("event.index", ANum i);
                   ("timestamp.relative",
                    AStr (toString ((duration r * (i + 1)) / (n + 1)) ++ "ms"))]).
Proof.
  apply (span_events (initialState (fun _ => 1 # 2))).
  intros n. cbn. split; [discriminate | reflexivity].
Defined.

Example span_events_half :
  List.filter isAddEvent (effects generateSpan (initialState (fun _ => 1 # 2)))
  = [ AddEvent 0%nat "User authenticated"
        [("event.index", ANum 0); ("timestamp.relative", AStr "100ms")];
      AddEvent 0%nat "User authenticated"
        [("event.index", ANum 1); ("timestamp.relative", AStr "200ms")] ].
Proof. vm_compute. reflexivity. Qed.

Lemma half_delay_between (d : Z) :
  0 < d -> (0 < inject_Z d / 2)%Q /\ (inject_Z d / 2 < inject_Z d)%Q.
Proof.
  intros Hd. unfold Qlt, Qdiv, Qmult, Qinv, inject_Z. cbn. lia.
Qed.

Lemma randomDuration_result (s : State) :
  result randomDuration s = floorScaled (rng s (draws s)) 500 + 50.
Proof. reflexivity. Qed.

(** C10: for draws in [[0,1)] the drawn duration is an integer of
    [[50, 549]], hence positive; [generateSpan] sets the completion
    timer of the primary span with that delay, and the timer of a child
    span, when one is opened, with [duration / 2], which is positive and
    below the primary delay. *)
Theorem duration_and_child_delay (s : State) :
  unitDraws s ->
  50 <= result randomDuration s <= 549 /\
  exists (r : Request) (t : Timer) (cs : list Timer),
    timers (exec generateSpan s) = (timers s ++ cs ++ [t])%list /\
    callback t = spanEndCb r /\
    due t = (now s + inject_Z (duration r))%Q /\
    50 <= duration r <= 549 /\
    forall c : Timer, In c cs ->
      exists (child : Span) (delay : Q),
        callback c = childEndCb child /\
        due c = (now s + delay)%Q /\
        delay = (inject_Z (duration r) / 2)%Q /\
        (0 < delay)%Q /\ (delay < inject_Z (duration r))%Q.
Proof.
  intros Hdraws. split.
  - rewrite randomDuration_result.
    pose proof (floorScaled_bounds (rng s (draws s)) 500 (Hdraws _) ltac:(lia)). lia.
  - exists (requestOf s), (primaryTimer s), (childTimers s).
    pose proof (duration_range s Hdraws) as Hd.
    repeat split; try apply Hd.
    + apply generateSpan_timers.
    + intros c Hc. unfold childTimers in Hc.
      destruct (opensChild s); [|contradiction].
      destruct Hc as [<-|[]].
      exists (S (nextSpan s)), (inject_Z (duration (requestOf s)) / 2)%Q.
      destruct (half_delay_between (duration (requestOf s)) ltac:(lia)) as [H0 H1].
      repeat split; assumption.
Qed.

Lemma duration_and_child_delay_witness :
  50 <= result randomDuration (initialState (fun _ => 3 # 4)) <= 549 /\
  exists (r : Request) (t : Timer) (cs : list Timer),
    timers (exec generateSpan (initialState (fun _ => 3 # 4)))
    = (timers (initialState (fun _ => 3 # 4)) ++ cs ++ [t])%list /\
    callback t = spanEndCb r /\
    due t = (0 + inject_Z (duration r))%Q /\
    50 <= duration r <= 549 /\
    forall c : Timer, In c cs ->
      exists (child : Span) (delay : Q),
        callback c = childEndCb child /\
        due c = (0 + delay)%Q /\
        delay = (inject_Z (duration r) / 2)%Q /\
        (0 < delay)%Q /\ (delay < inject_Z (duration r))%Q.
Proof.
  apply (duration_and_child_delay (initialState (fun _ => 3 # 4))).
  intros n. cbn. split; [discriminate | reflexivity].
Defined.

(** With every draw at 0.75 the duration is 425 ms and a child span is
    opened; the delay passed for its end is 212.5 ms, of which the
    browser makes 212 ms. *)
Example child_span_three_quarters :
  map (fun t => (timerId t, Qred (due t), Qred (fires t)))
    (timers (exec generateSpan (initialState (fun _ => 3 # 4))))
  = [ (1, (425 # 2)%Q, (212 # 1)%Q); (2, (425 # 1)%Q, (425 # 1)%Q) ].
Proof. vm_compute. reflexivity. Qed.

(** C6: the completion callback [generateSpan] registers, whenever it
    runs: for a status code of 400 or more it sets the error status with
    the message "HTTP <code> Error", adds 1 to the error counter tagged
    by status code and endpoint, and emits one log entry, of error
    level; below 400 it sets the success status, emits one log entry, of
    info level, reporting the duration, and leaves the error counter
    alone; in both cases it records the duration in the histogram tagged
    by method, endpoint and status code. *)
Theorem completion_telemetry (s : State) :
  exists (r : Request) (t : Timer) (cs : list Timer),
    timers (exec generateSpan s) = (timers s ++ cs ++ [t])%list /\
    callback t = spanEndCb r /\
    forall s' : State,
      (400 <= statusCode r ->
         List.filter isSetStatus (effects (runCallback (callback t)) s')
         = [SetStatus (span r) 2 (Some ("HTTP " ++ toString (statusCode r) ++ " Error"))] /\
         List.filter isErrorCounterAdd (effects (runCallback (callback t)) s')
         = [InstrumentAdd errorCounter 1
              [("status_code", AStr (toString (statusCode r))); ("endpoint", AStr (endpoint r))]] /\
         List.filter isLoggerEmit (effects (runCallback (callback t)) s')
         = [LoggerEmit SeverityNumber.ERROR "ERROR"
              ("Error: " ++ method r ++ " " ++ endpoint r ++ " returned " ++ toString (statusCode r))
              [("log.source", AStr "load-testing");
               ("http.method", AStr (method r)); ("http.url", AStr (endpoint r));
               ("http.status_code", ANum (statusCode r)); ("error", ABool true)]]) /\
      (statusCode r < 400 ->
         List.filter isSetStatus (effects (runCallback (callback t)) s')
         = [SetStatus (span r) 1 None] /\
         List.filter isErrorCounterAdd (effects (runCallback (callback t)) s') = [] /\
         List.filter isLoggerEmit (effects (runCallback (callback t)) s')
         = [LoggerEmit SeverityNumber.INFO "INFO"
              ("Completed " ++ method r ++ " " ++ endpoint r ++ " in "
                 ++ toString (duration r) ++ "ms")
              [("log.source", AStr "load-testing");
               ("http.method", AStr (method r)); ("http.url", AStr (endpoint r));
               ("duration_ms", ANum (duration r))]]) /\
      List.filter isInstrumentRecord (effects (runCallback (callback t)) s')
      = [InstrumentRecord requestDuration (duration r)
           [("method", AStr (method r)); ("endpoint", AStr (endpoint r));
            ("status_code", AStr (toString (statusCode r)))]].
Proof.
  exists (requestOf s), (primaryTimer s), (childTimers s).
  split; [apply generateSpan_timers|]. split; [reflexivity|].
  intros s'. cbn [primaryTimer callback runCallback].
  rewrite spanEnd_effects. unfold completionEffects.
  rewrite !filter_app.
  assert (He : isError (requestOf s) = (400 <=? statusCode (requestOf s))) by reflexivity.
  split; [|split].
  - intros Hge. rewrite He. destruct (Z.leb_spec 400 (statusCode (requestOf s))); [|lia].
    repeat split; destruct (spanCount s' mod 10 =? 0); reflexivity.
  - intros Hlt. rewrite He. destruct (Z.leb_spec 400 (statusCode (requestOf s))); [lia|].
    repeat split; destruct (spanCount s' mod 10 =? 0); reflexivity.
  - destruct (isError (requestOf s)); destruct (spanCount s' mod 10 =? 0); reflexivity.
Qed.

(** ** The configuration *)

Section KeepsConfig.

Context {A B : Type}.

Lemma keepsConfig_ret (a : A) : keepsConfig (ret a).
Proof. intros s. reflexivity. Qed.

Lemma keepsConfig_gets (f : State -> A) : keepsConfig (gets f).
Proof. intros s. reflexivity. Qed.

Lemma keepsConfig_bind (m : M A) (k : A -> M B) :
  keepsConfig m -> (forall a, keepsConfig (k a)) -> keepsConfig (bind m k).
Proof. intros Hm Hk s. rewrite exec_bind, Hk, Hm. reflexivity. Qed.

End KeepsConfig.

Lemma keepsConfig_emit (e : Effect) : keepsConfig (emit e).
Proof. intros s. reflexivity. Qed.

Lemma keepsConfig_modify (f : State -> State) :
  (forall s, config (f s) = config s) -> keepsConfig (modify f).
Proof. intros Hf s. apply Hf. Qed.

Lemma keepsConfig_random : keepsConfig random.
Proof. intros s. reflexivity. Qed.

Lemma keepsConfig_setTimeout (cb : Callback) (delay : Q) : keepsConfig (setTimeout cb delay).
Proof. intros s. reflexivity. Qed.

Lemma keepsConfig_generateSpan : keepsConfig generateSpan.
Proof. intros s. rewrite generateSpan_exec. reflexivity. Qed.

Lemma keepsConfig_forLoop (body : Z -> M unit) (n : nat) :
  (forall i, keepsConfig (body i)) -> forall i, keepsConfig (forLoop n i body).
Proof.
  intros Hbody. induction n as [|n IH]; intros i.
  - apply keepsConfig_ret.
  - cbn [forLoop]. apply keepsConfig_bind; [apply Hbody | intros _; apply IH].
Qed.

Create HintDb keeps.
#[local] Hint Resolve keepsConfig_ret keepsConfig_gets keepsConfig_emit keepsConfig_random
  keepsConfig_setTimeout keepsConfig_generateSpan : keeps.
#[local] Hint Opaque generateSpan scheduleNext spanEnd childEnd : keeps.

(** Splits a statement into its steps and closes those that visibly
    leave the configuration alone. *)
Ltac keeps_config :=
  repeat first
    [ solve [auto with keeps]
    | apply keepsConfig_forLoop; intros ?
    | apply keepsConfig_modify; intros ?; reflexivity
    | apply keepsConfig_bind; [|intros ?]
    | match goal with
      | |- keepsConfig (if ?b then _ else _) => destruct b
      | |- keepsConfig (match ?x with _ => _ end) => destruct x
      end ].

Lemma keepsConfig_scheduleNext : keepsConfig scheduleNext.
Proof. unfold scheduleNext. keeps_config. Qed.

Lemma keepsConfig_spanEnd (r : Request) : keepsConfig (spanEnd r).
Proof. intros s. unfold exec. rewrite spanEnd_run. reflexivity. Qed.

Lemma keepsConfig_childEnd (c : Span) : keepsConfig (childEnd c).
Proof. unfold childEnd. keeps_config. Qed.

#[local] Hint Resolve keepsConfig_scheduleNext keepsConfig_spanEnd keepsConfig_childEnd : keeps.

Lemma keepsConfig_startLoadTest : keepsConfig startLoadTest.
Proof. unfold startLoadTest, updateUI, emitLog. keeps_config. Qed.

Lemma keepsConfig_stopLoadTest : keepsConfig stopLoadTest.
Proof. unfold stopLoadTest, updateUI, emitLog, clearTimeout, removeTimer. keeps_config. Qed.

Lemma keepsConfig_timerFires : keepsConfig timerFires.
Proof.
  unfold timerFires, clearTimeout, runCallback. keeps_config.
Qed.

Lemma updateConfig_run (d : Document) (s : State) :
  updateConfig d s =
    (tt, withConfig (updateConfigOf d (config s)) s,
     [configLine (updateConfigOf d (config s))]).
Proof. reflexivity. Qed.

Lemma applyConfig_bounds (minI maxI batch : Number) (c : Config) :
  boundsHold c -> boundsHold (applyConfig minI maxI batch c).
Proof.
  unfold boundsHold, applyConfig. intros (Hmin & Hmax & Hb).
  destruct minI as [|a], maxI as [|b], batch as [|n];
    cbn [isNaN negb andb geNum store];
    repeat match goal with
      | |- context [?x <=? ?y] => destruct (Z.leb_spec x y)
      end;
    cbn [setMinInterval setMaxInterval setBatchSize minInterval maxInterval batchSize] in *;
    lia.
Qed.

(** Of the configuration invariant, the lower bounds hold in every
    state the page can reach. *)
Lemma config_bounds_reached (script : list Action) :
  forall s : State, boundsHold (config s) -> boundsHold (config (exec (run script) s)).
Proof.
  induction script as [|a script IH]; intros s Hs.
  - exact Hs.
  - cbn [run]. rewrite exec_bind. apply IH.
    destruct a; cbn [handle].
    + rewrite keepsConfig_startLoadTest. exact Hs.
    + rewrite keepsConfig_stopLoadTest. exact Hs.
    + unfold exec. rewrite updateConfig_run. cbn [fst snd withConfig config].
      apply applyConfig_bounds. exact Hs.
    + rewrite keepsConfig_timerFires. exact Hs.
Qed.

(** C2: the ordering [maxInterval >= minInterval] is lost.  On the
    freshly loaded page, typing 2000 into the minInterval field (the
    other two fields still show 1000 and 1) stores [minInterval = 2000]
    unchecked against [maxInterval], and leaves [maxInterval] at 1000. *)
Theorem updateConfig_loses_ordering :
  config
    (exec (run [inputConfig {| minIntervalEl := Some "2000"; maxIntervalEl := Some "1000";
                               batchSizeEl := Some "1" |}])
       (initialState (fun _ => 0%Q)))
  = {| minInterval := 2000; maxInterval := 1000; batchSize := 1 |}.
Proof. vm_compute. reflexivity. Qed.

(** C5: [updateConfig] decides each field by its own guard.  The
    [minInterval] candidate is stored iff it is a number of at least 10;
    the [maxInterval] candidate iff it is a number not below the current
    [minInterval], which is [config.minInterval] as the guard reads it,
    the [minInterval] guard having run; the [batchSize] candidate iff it
    is a number of at least 1.  A field whose candidate fails keeps its
    value, the only output is the console line, and nothing but the
    configuration changes; when all three fail the state is unchanged. *)
Theorem updateConfig_fieldwise (d : Document) (s : State) :
  (forall v, parseInt (minIntervalEl d) = Int v -> 10 <= v ->
     minInterval (config (exec (updateConfig d) s)) = v) /\
  ((forall v, parseInt (minIntervalEl d) = Int v -> v < 10) ->
     minInterval (config (exec (updateConfig d) s)) = minInterval (config s)) /\
  (forall v, parseInt (maxIntervalEl d) = Int v ->
     minInterval (config (exec (updateConfig d) s)) <= v ->
     maxInterval (config (exec (updateConfig d) s)) = v) /\
  ((forall v, parseInt (maxIntervalEl d) = Int v ->
      v < minInterval (config (exec (updateConfig d) s))) ->
     maxInterval (config (exec (updateConfig d) s)) = maxInterval (config s)) /\
  (forall v, parseInt (batchSizeEl d) = Int v -> 1 <= v ->
     batchSize (config (exec (updateConfig d) s)) = v) /\
  ((forall v, parseInt (batchSizeEl d) = Int v -> v < 1) ->
     batchSize (config (exec (updateConfig d) s)) = batchSize (config s)) /\
  effects (updateConfig d) s = [configLine (config (exec (updateConfig d) s))] /\
  exec (updateConfig d) s = withConfig (config (exec (updateConfig d) s)) s /\
  ((forall v, parseInt (minIntervalEl d) = Int v -> v < 10) ->
   (forall v, parseInt (maxIntervalEl d) = Int v -> v < minInterval (config s)) ->
   (forall v, parseInt (batchSizeEl d) = Int v -> v < 1) ->
   exec (updateConfig d) s = s).
Proof.
  unfold exec, effects. rewrite updateConfig_run. cbn [fst snd withConfig config].
  unfold updateConfigOf, applyConfig.
  destruct s as [c run iid sc act nw ts ntid nsp rg dr nst]. cbn [config withConfig].
  destruct c as [cmin cmax cb].
  destruct (parseInt (minIntervalEl d)) as [|a];
    destruct (parseInt (maxIntervalEl d)) as [|b];
    destruct (parseInt (batchSizeEl d)) as [|n];
    cbn [isNaN negb andb geNum store];
    repeat match goal with
      | |- context [?x <=? ?y] => destruct (Z.leb_spec x y)
      end;
    cbn [setMinInterval setMaxInterval setBatchSize minInterval maxInterval batchSize];
    repeat match goal with
      | |- _ /\ _ => split
      | |- _ = _ => reflexivity
      end;
    intros;
    repeat match goal with
      | H : forall v, Int ?a = Int v -> _ |- _ => specialize (H a eq_refl)
      | H : Int _ = Int _ |- _ => injection H as H
      | H : NaN = Int _ |- _ => discriminate H
      end;
    cbn [setMinInterval setMaxInterval setBatchSize minInterval maxInterval batchSize] in *;
    subst; try reflexivity; try lia.
Qed.

(** The [maxInterval] guard sees the [minInterval] just stored: with
    the default configuration, 10 and 50 are both accepted, and of 2000
    and 1500 only the first. *)
Example updateConfig_in_source_order :
  updateConfigOf {| minIntervalEl := Some "10"; maxIntervalEl := Some "50"; batchSizeEl := None |}
    initialConfig
  = {| minInterval := 10; maxInterval := 50; batchSize := 1 |} /\
  updateConfigOf {| minIntervalEl := Some "2000"; maxIntervalEl := Some "1500"; batchSizeEl := None |}
    initialConfig
  = {| minInterval := 2000; maxInterval := 1000; batchSize := 1 |}.
Proof. split; reflexivity. Qed.

Example parseInt_examples :
  parseInt (Some "  42px") = Int 42 /\ parseInt (Some "-7") = Int (-7) /\
  parseInt (Some "") = NaN /\ parseInt (Some "abc") = NaN /\
  parseInt None = NaN /\ parseInt (Some "12.5") = Int 12.
Proof. repeat split; reflexivity. Qed.

(** ** The active-span count when no restart meets requests in flight *)

Lemma removeTimer_In (i : Z) (ts : list Timer) (t : Timer) :
  In t (removeTimer i ts) -> In t ts /\ timerId t <> i.
Proof.
  unfold removeTimer. intros H. apply filter_In in H. destruct H as [Hin Hne].
  split; [exact Hin|]. destruct (Z.eqb_spec (timerId t) i); [discriminate|assumption].
Qed.

Lemma removeTimer_NoDup (i : Z) (ts : list Timer) :
  NoDup (map timerId ts) -> NoDup (map timerId (removeTimer i ts)).
Proof.
  induction ts as [|t ts IH]; intros H; [constructor|].
  inversion H as [|x l Hnot Hrest]; subst.
  unfold removeTimer. cbn [List.filter].
  destruct (negb (timerId t =? i)); [|apply IH; exact Hrest].
  cbn [map]. constructor; [|apply IH; exact Hrest].
  intros Hin. apply Hnot. apply in_map_iff in Hin. destruct Hin as [u [Hu Hin]].
  apply in_map_iff. exists u. split; [exact Hu|].
  apply (removeTimer_In i ts u Hin).
Qed.

Lemma removeTimer_other (i : Z) (ts : list Timer) :
  (forall t, In t ts -> timerId t = i -> isCompletion t = false) ->
  List.filter isCompletion (removeTimer i ts) = List.filter isCompletion ts.
Proof.
  induction ts as [|t ts IH]; intros H; [reflexivity|].
  unfold removeTimer. cbn [List.filter].
  destruct (Z.eqb_spec (timerId t) i) as [Heq|Hne]; cbn [negb].
  - rewrite (H t (or_introl eq_refl) Heq).
    apply IH. intros u Hu. apply H. right. exact Hu.
  - cbn [List.filter]. fold (removeTimer i ts).
    rewrite IH by (intros u Hu; apply H; right; exact Hu). reflexivity.
Qed.

Lemma removeTimer_absent (i : Z) (ts : list Timer) :
  ~ In i (map timerId ts) -> removeTimer i ts = ts.
Proof.
  induction ts as [|t ts IH]; intros H; [reflexivity|].
  unfold removeTimer. cbn [List.filter].
  destruct (Z.eqb_spec (timerId t) i) as [Heq|Hne]; cbn [negb].
  - exfalso. apply H. left. exact Heq.
  - fold (removeTimer i ts). rewrite IH; [reflexivity|].
    intros Hin. apply H. right. exact Hin.
Qed.

Lemma removeTimer_fired (t : Timer) (ts : list Timer) :
  NoDup (map timerId ts) -> In t ts ->
  List.length (List.filter isCompletion ts)
  = ((if isCompletion t then 1 else 0)
     + List.length (List.filter isCompletion (removeTimer (timerId t) ts)))%nat.
Proof.
  induction ts as [|u ts IH]; intros Hnd Hin; [contradiction|].
  inversion Hnd as [|x l Hnot Hrest]; subst.
  unfold removeTimer. cbn [List.filter].
  destruct Hin as [->|Hin].
  - rewrite Z.eqb_refl. cbn [negb]. fold (removeTimer (timerId t) ts).
    rewrite (removeTimer_absent _ _ Hnot).
    destruct (isCompletion t); reflexivity.
  - destruct (Z.eqb_spec (timerId u) (timerId t)) as [Heq|Hne]; cbn [negb].
    + exfalso. apply Hnot. rewrite Heq. apply in_map. exact Hin.
    + cbn [List.filter]. fold (removeTimer (timerId t) ts).
      specialize (IH Hrest Hin).
      destruct (isCompletion u), (isCompletion t); cbn [List.length] in *; lia.
Qed.

Lemma earliest_In (ts : list Timer) (t : Timer) :
  earliest ts = Some t -> In t ts.
Proof.
  revert t. induction ts as [|u ts IH]; intros t H; [discriminate|].
  cbn [earliest] in H. destruct (earliest ts) as [v|].
  - destruct (Qle_bool (fires u) (fires v)); injection H as <-.
    + left. reflexivity.
    + right. apply IH. reflexivity.
  - injection H as <-. left. reflexivity.
Qed.

Lemma inFlight_generated (s : State) :
  inFlight (generatedState s) = S (inFlight s).
Proof.
  unfold inFlight, generatedState, childTimers, primaryTimer. cbn [timers].
  rewrite !filter_app, !length_app.
  destruct (opensChild s); cbn; lia.
Qed.

Lemma generateSpan_consistent (s : State) :
  consistent s -> consistent (exec generateSpan s).
Proof.
  intros [Hb Hd Hi Ht Ha]. rewrite generateSpan_exec.
  assert (Hnew : forall t, In t (childTimers s ++ [primaryTimer s])%list ->
                   nextTimerId s <= timerId t < nextTimerId (generatedState s)).
  { intros t. unfold childTimers, primaryTimer, generatedState. cbn [nextTimerId].
    destruct (opensChild s); cbn [app In];
      intros [<-|[<-|[]]] || intros [<-|[]]; cbn [timerId]; lia. }
  assert (Hold : forall t, In t (timers s) -> timerId t < nextTimerId (generatedState s)).
  { intros t Hin. specialize (Hb t Hin). unfold generatedState. cbn [nextTimerId].
    destruct (opensChild s); lia. }
  constructor.
  - intros t Hin. cbn [generatedState timers] in Hin.
    apply in_app_or in Hin. destruct Hin as [Hin|Hin]; [apply Hold; exact Hin|].
    apply Hnew. exact Hin.
  - cbn [generatedState timers]. rewrite map_app. apply NoDup_app; [exact Hd| |].
    + unfold childTimers, primaryTimer.
      destruct (opensChild s); cbn [app map timerId]; repeat constructor; cbn [In]; lia.
    + intros i Hin Hin'. apply in_map_iff in Hin. destruct Hin as [t [<- Hin]].
      apply in_map_iff in Hin'. destruct Hin' as [u [Heq Hin']].
      specialize (Hb t Hin). specialize (Hnew u Hin'). lia.
  - intros i Hint. cbn [generatedState intervalId] in Hint. specialize (Hi i Hint).
    unfold generatedState. cbn [nextTimerId]. destruct (opensChild s); lia.
  - intros i t Hint Hin Hid. cbn [generatedState intervalId timers] in Hint, Hin.
    apply in_app_or in Hin. destruct Hin as [Hin|Hin]; [apply (Ht i t Hint Hin Hid)|].
    specialize (Hi i Hint). specialize (Hnew t Hin). lia.
  - rewrite inFlight_generated. cbn [generatedState activeSpans]. lia.
Qed.

Lemma forLoop_generateSpan_consistent (n : nat) :
  forall (i : Z) (s : State),
    consistent s -> consistent (exec (forLoop n i (fun _ => generateSpan)) s).
Proof.
  induction n as [|n IH]; intros i s Hs.
  - exact Hs.
  - cbn [forLoop]. rewrite exec_bind. apply IH. apply generateSpan_consistent. exact Hs.
Qed.

Lemma scheduleNext_consistent (s : State) :
  consistent s -> consistent (exec scheduleNext s).
Proof.
  intros Hs. destruct (isRunning s) eqn:Hrun.
  2:{ unfold exec. rewrite (scheduleNext_stopped s Hrun). exact Hs. }
  rewrite (scheduleNext_exec s Hrun). cbn zeta.
  assert (Hsb : consistent (afterBatch s))
    by (apply forLoop_generateSpan_consistent; exact Hs).
  destruct Hsb as [Hb Hd Hi Ht Ha].
  unfold nextCycleTimer. cbn zeta.
  set (sb := afterBatch s) in *.
  constructor; cbn [withIntervalId withNextTimerId withTimers withDraws timers nextTimerId
                    intervalId activeSpans].
  - intros t Hin. apply in_app_or in Hin. destruct Hin as [Hin|[<-|[]]].
    + specialize (Hb t Hin). lia.
    + cbn [timerId]. lia.
  - rewrite map_app. apply NoDup_app; [exact Hd| |].
    + cbn [map]. repeat constructor. intros [].
    + intros i Hin [<-|[]]. apply in_map_iff in Hin. destruct Hin as [t [Heq Hin]].
      specialize (Hb t Hin). cbn [timerId] in Heq. lia.
  - intros i Hint. injection Hint as <-. lia.
  - intros i t Hint Hin Hid. injection Hint as <-.
    apply in_app_or in Hin. destruct Hin as [Hin|[<-|[]]].
    + specialize (Hb t Hin). lia.
    + reflexivity.
  - unfold inFlight.
    cbn [withIntervalId withNextTimerId withTimers withDraws timers].
    rewrite filter_app, length_app. cbn.
    fold (inFlight sb). lia.
Qed.

Lemma consistent_ext (s s' : State) :
  timers s' = timers s -> nextTimerId s' = nextTimerId s ->
  intervalId s' = intervalId s -> activeSpans s' = activeSpans s ->
  consistent s -> consistent s'.
Proof.
  intros Ht Hn Hi Ha [Hb Hd Hib Hit Hact].
  constructor; unfold inFlight; rewrite ?Ht, ?Hn, ?Hi, ?Ha; assumption.
Qed.

Lemma initialState_consistent (r : nat -> Q) : consistent (initialState r).
Proof.
  constructor; cbn; try constructor; try contradiction; try discriminate; reflexivity.
Qed.

Lemma startLoadTest_running (s : State) :
  isRunning s = true -> exec startLoadTest s = s.
Proof.
  intros Hrun. unfold startLoadTest. rewrite exec_bind.
  cbn [result gets fst snd exec]. rewrite Hrun. reflexivity.
Qed.

Lemma startLoadTest_consistent (s : State) :
  isRunning s = true \/ inFlight s = O ->
  consistent s -> consistent (exec startLoadTest s).
Proof.
  intros Hsafe Hs. destruct (isRunning s) eqn:Hrun.
  - rewrite (startLoadTest_running s Hrun). exact Hs.
  - destruct Hsafe as [Hsafe|Hzero]; [discriminate|].
    rewrite (startLoadTest_exec s Hrun). apply scheduleNext_consistent.
    destruct Hs as [Hb Hd Hi Ht Ha].
    constructor; try assumption.
    change (inFlight (started s)) with (inFlight s). rewrite Hzero. reflexivity.
Qed.

Lemma stopLoadTest_exec (s : State) :
  exec stopLoadTest s =
    if isRunning s then
      match intervalId s with
      | Some i =>
          if i =? 0 then withIsRunning false s
          else withIntervalId None
                 (withTimers (removeTimer i (timers s)) (withIsRunning false s))
      | None => withIsRunning false s
      end
    else s.
Proof.
  unfold stopLoadTest, updateUI, emitLog, clearTimeout.
  destruct s as [cfg run iid sc act nw ts ntid nsp rg dr nst].
  destruct run; [|reflexivity].
  destruct iid as [[|p|p]|]; reflexivity.
Qed.

Lemma stopLoadTest_consistent (s : State) :
  consistent s -> consistent (exec stopLoadTest s).
Proof.
  intros Hs. rewrite stopLoadTest_exec.
  destruct (isRunning s); [|exact Hs].
  destruct (intervalId s) as [i|] eqn:Hint;
    [destruct (i =? 0)|]; try (apply (consistent_ext s); [reflexivity..|exact Hs]).
  destruct Hs as [Hb Hd Hi Ht Ha].
  constructor; cbn [withIntervalId withTimers withIsRunning timers nextTimerId intervalId
                    activeSpans]; try discriminate.
  - intros t Hin. apply Hb. apply (removeTimer_In i _ t Hin).
  - apply removeTimer_NoDup. exact Hd.
  - unfold inFlight. cbn [withIntervalId withTimers withIsRunning timers].
    rewrite removeTimer_other; [exact Ha|].
    intros t Hin Hid. apply (Ht i t Hint Hin Hid).
Qed.

(** The state in which the callback of a fired timer [t] runs. *)
Lemma timerFires_exec (s : State) :
  exec timerFires s =
    match earliest (timers s) with
    | None => s
    | Some t => withNesting O (exec (runCallback (callback t)) (firedState t s))
    end.
Proof.
  unfold timerFires. rewrite exec_bind. cbn [result gets fst snd exec].
  destruct (earliest (timers s)) as [t|]; [|reflexivity].
  unfold clearTimeout. rewrite !exec_bind. reflexivity.
Qed.

Lemma fired_consistent (s : State) (t : Timer) (clock : Q) :
  consistent s -> In t (timers s) ->
  consistent
    (withActiveSpans (activeSpans s - (if isCompletion t then 1 else 0))
       (withNow clock (withTimers (removeTimer (timerId t) (timers s)) s))).
Proof.
  intros [Hb Hd Hi Ht Ha] Hin.
  constructor; cbn [withActiveSpans withNow withTimers timers nextTimerId intervalId
                    activeSpans].
  - intros u Hu. apply Hb. apply (removeTimer_In _ _ u Hu).
  - apply removeTimer_NoDup. exact Hd.
  - exact Hi.
  - intros i u Hint Hu Hid. apply (Ht i u Hint); [|exact Hid].
    apply (removeTimer_In _ _ u Hu).
  - unfold inFlight in *. cbn [withActiveSpans withNow withTimers timers].
    pose proof (removeTimer_fired t (timers s) Hd Hin) as Hlen.
    destruct (isCompletion t); lia.
Qed.

Lemma timerFires_consistent (s : State) :
  consistent s -> consistent (exec timerFires s).
Proof.
  intros Hs. rewrite timerFires_exec.
  destruct (earliest (timers s)) as [t|] eqn:He; [|exact Hs].
  pose proof (fired_consistent s t (if Qle_bool (now s) (fires t) then fires t else now s)
                Hs (earliest_In _ _ He)) as Hfired.
  unfold isCompletion in Hfired.
  apply (consistent_ext (exec (runCallback (callback t)) (firedState t s)));
    [reflexivity..|].
  destruct (callback t) as [|c|r]; cbn [runCallback].
  - apply scheduleNext_consistent. revert Hfired. apply consistent_ext; try reflexivity.
    unfold firedState. cbn [withActiveSpans withNow withTimers withNesting activeSpans]. lia.
  - revert Hfired. apply consistent_ext; try reflexivity.
    unfold firedState. cbn [withActiveSpans withNow withTimers withNesting activeSpans].
    change (activeSpans (exec (childEnd c) ?x)) with (activeSpans x). cbn. lia.
  - unfold exec. rewrite spanEnd_run. cbn [fst snd].
    revert Hfired. apply consistent_ext; reflexivity.
Qed.

Lemma handle_consistent (a : Action) (s : State) :
  (a = clickStart -> isRunning s = true \/ inFlight s = O) ->
  consistent s -> consistent (exec (handle a) s).
Proof.
  intros Hsafe Hs. destruct a; cbn [handle].
  - apply startLoadTest_consistent; [apply Hsafe; reflexivity | exact Hs].
  - apply stopLoadTest_consistent. exact Hs.
  - unfold exec. rewrite updateConfig_run. cbn [fst snd].
    revert Hs. apply consistent_ext; reflexivity.
  - apply timerFires_consistent. exact Hs.
Qed.

Lemma run_consistent (script : list Action) :
  forall s : State,
    consistent s -> noRestartInFlight script s -> consistent (exec (run script) s).
Proof.
  induction script as [|a script IH]; intros s Hs Hsafe.
  - exact Hs.
  - destruct Hsafe as [Ha Hrest]. cbn [run]. rewrite exec_bind.
    apply IH; [apply handle_consistent; assumption | exact Hrest].
Qed.

(** As long as Start is not clicked on a stopped generator with
    requests in flight, [activeSpans] is the number of requests in
    flight, so it is never negative. *)
Lemma activeSpans_nonneg_without_restart (r : nat -> Q) (script : list Action) :
  noRestartInFlight script (initialState r) ->
  activeSpans (exec (run script) (initialState r))
  = Z.of_nat (inFlight (exec (run script) (initialState r))) /\
  0 <= activeSpans (exec (run script) (initialState r)).
Proof.
  intros Hsafe.
  destruct (run_consistent script _ (initialState_consistent r) Hsafe) as [_ _ _ _ Ha].
  split; [exact Ha | lia].
Qed.

(** * Further properties of the generator *)

(** ** Reading back what the page wrote *)

(** Evaluates the character tests of [parseInt] on literal characters. *)
Ltac eval_chars :=
  repeat match goal with
    | |- context [digitValue ?c] =>
        let v := eval vm_compute in (digitValue c) in change (digitValue c) with v
    | |- context [isWhiteSpace ?c] =>
        let v := eval vm_compute in (isWhiteSpace c) in change (isWhiteSpace c) with v
    end;
  cbv iota.

Lemma digitsPrefix_uint (d : Decimal.uint) :
  forall acc : Z,
    digitsPrefix (NilEmpty.string_of_uint d) (Some acc) = Some (uintValue d acc).
Proof.
  induction d; intros acc; cbn [NilEmpty.string_of_uint uintValue];
    try reflexivity;
    (cbn [digitsPrefix]; eval_chars; rewrite IHd; f_equal; f_equal; lia).
Qed.

Lemma digitsPrefix_uint_start (d : Decimal.uint) :
  d <> Decimal.Nil ->
  digitsPrefix (NilEmpty.string_of_uint d) None = Some (uintValue d 0).
Proof.
  destruct d; intros Hd; [contradiction|..];
    cbn [NilEmpty.string_of_uint uintValue digitsPrefix]; eval_chars;
    rewrite digitsPrefix_uint; reflexivity.
Qed.

Lemma uintValue_of_uint_acc (d : Decimal.uint) :
  forall acc : positive, Z.pos (Pos.of_uint_acc d acc) = uintValue d (Z.pos acc).
Proof.
  induction d; intros acc; cbn [Pos.of_uint_acc uintValue];
    try reflexivity; rewrite IHd; f_equal; lia.
Qed.

Lemma uintValue_of_uint (d : Decimal.uint) : uintValue d 0 = Z.of_uint d.
Proof.
  unfold Z.of_uint.
  induction d; cbn [Pos.of_uint uintValue Z.of_N]; try reflexivity;
    try (rewrite uintValue_of_uint_acc; reflexivity).
  exact IHd.
Qed.

Lemma to_uint_not_nil (p : positive) : Pos.to_uint p <> Decimal.Nil.
Proof.
  intros H. pose proof (DecimalPos.Unsigned.of_to p) as Hp.
  rewrite H in Hp. discriminate Hp.
Qed.

Lemma to_uint_value (p : positive) : uintValue (Pos.to_uint p) 0 = Z.pos p.
Proof.
  rewrite uintValue_of_uint. unfold Z.of_uint.
  rewrite DecimalPos.Unsigned.of_to. reflexivity.
Qed.

Lemma parse_uint (d : Decimal.uint) :
  d <> Decimal.Nil ->
  parseInt (Some (NilEmpty.string_of_uint d)) = Int (uintValue d 0) /\
  parseInt (Some (String "-" (NilEmpty.string_of_uint d))) = Int (- uintValue d 0).
Proof.
  intros Hd. pose proof (digitsPrefix_uint_start d Hd) as Hdigits.
  unfold parseInt. split.
  - destruct d; try contradiction; cbn [NilEmpty.string_of_uint] in *;
      cbn [trimStart]; eval_chars; rewrite Hdigits; f_equal; try lia.
  - cbn [trimStart]. eval_chars. rewrite Hdigits. f_equal; try lia.
Qed.

Lemma parseInt_toString_any (n : Z) : parseInt (Some (toString n)) = Int n.
Proof.
  unfold toString. destruct n as [|p|p]; cbn [Z.to_int NilZero.string_of_int].
  - reflexivity.
  - unfold NilZero.string_of_uint.
    destruct (parse_uint (Pos.to_uint p) (to_uint_not_nil p)) as [Hpos _].
    rewrite to_uint_value in Hpos.
    destruct (Pos.to_uint p) eqn:Hd; [destruct (to_uint_not_nil p Hd)|..]; exact Hpos.
  - unfold NilZero.string_of_uint.
    destruct (parse_uint (Pos.to_uint p) (to_uint_not_nil p)) as [_ Hneg].
    rewrite to_uint_value in Hneg.
    destruct (Pos.to_uint p) eqn:Hd; [destruct (to_uint_not_nil p Hd)|..]; exact Hneg.
Qed.

(** Decides the guards of [applyConfig] one after the other. *)
Ltac config_cases :=
  repeat (cbn [isNaN negb andb geNum store setMinInterval setMaxInterval setBatchSize
               minInterval maxInterval batchSize] in *;
          match goal with
          | |- context [?x <=? ?y] => destruct (Z.leb_spec x y)
          end);
  cbn [isNaN negb andb geNum store setMinInterval setMaxInterval setBatchSize
       minInterval maxInterval batchSize] in *.

(** X1: [parseInt] reads every safe integer back from its string
    form (beyond them a number's string form is no longer its plain
    digits). *)
Theorem parseInt_toString (n : Z) :
  isSafeInteger n -> parseInt (Some (toString n)) = Int n.
Proof. intros _. apply parseInt_toString_any. Qed.

Lemma parseInt_toString_witness : parseInt (Some (toString (-1000))) = Int (-1000).
Proof.
  apply (parseInt_toString (-1000)). unfold isSafeInteger. lia.
Defined.

Lemma applyConfig_own_values (a b n : Number) (c : Config) :
  (a = NaN \/ a = Int (minInterval c)) ->
  (b = NaN \/ b = Int (maxInterval c)) ->
  (n = NaN \/ n = Int (batchSize c)) ->
  applyConfig a b n c = c.
Proof.
  destruct c as [cmin cmax cb]. cbn [minInterval maxInterval batchSize].
  intros [->| ->] [->| ->] [->| ->]; unfold applyConfig; config_cases;
    try reflexivity; lia.
Qed.

(** X2: on the page as the [load] handler leaves it, whichever of the
    three fields exist, [updateConfig] changes nothing: every field
    holds the string form of the value already stored, and a value read
    back is either rejected or stored over itself. *)
Theorem updateConfig_after_load (hasMin hasMax hasBatch : bool) (s : State) :
  isSafeInteger (minInterval (config s)) ->
  isSafeInteger (maxInterval (config s)) ->
  isSafeInteger (batchSize (config s)) ->
  exec (updateConfig (loadFields hasMin hasMax hasBatch (config s))) s = s.
Proof.
  intros Hmin Hmax Hbatch.
  unfold exec. rewrite updateConfig_run. cbn [fst snd].
  unfold updateConfigOf, loadFields. cbn [minIntervalEl maxIntervalEl batchSizeEl].
  rewrite applyConfig_own_values.
  - destruct s; reflexivity.
  - destruct hasMin; [right; apply parseInt_toString_any | left; reflexivity].
  - destruct hasMax; [right; apply parseInt_toString_any | left; reflexivity].
  - destruct hasBatch; [right; apply parseInt_toString_any | left; reflexivity].
Qed.

Lemma updateConfig_after_load_witness :
  exec (updateConfig (loadFields true true true initialConfig)) (initialState (fun _ => 0%Q))
  = initialState (fun _ => 0%Q).
Proof.
  apply (updateConfig_after_load true true true (initialState (fun _ => 0%Q)));
    unfold isSafeInteger; cbn; lia.
Defined.

Lemma updateConfigOf_idempotent (d : Document) (c : Config) :
  updateConfigOf d (updateConfigOf d c) = updateConfigOf d c.
Proof.
  unfold updateConfigOf, applyConfig. destruct c as [cmin cmax cb].
  destruct (parseInt (minIntervalEl d)) as [|a];
    destruct (parseInt (maxIntervalEl d)) as [|b];
    destruct (parseInt (batchSizeEl d)) as [|n];
    config_cases; try reflexivity; lia.
Qed.

(** X3: handling the same field values a second time (the page calls
    [updateConfig] on both [change] and [input]) changes nothing more. *)
Theorem updateConfig_idempotent (d : Document) (s : State) :
  exec (updateConfig d ;; updateConfig d) s = exec (updateConfig d) s.
Proof.
  rewrite exec_bind. unfold exec. rewrite !updateConfig_run. cbn [fst snd].
  destruct s as [c run iid sc act nw ts ntid nsp rg dr nst]. cbn [withConfig config].
  rewrite updateConfigOf_idempotent. reflexivity.
Qed.

(** X4: an update of an ordered configuration loses the ordering
    [minInterval <= maxInterval] exactly when it stores a [minInterval]
    above the stored [maxInterval] and no [maxInterval] candidate of at
    least that value comes with it. *)
Theorem updateConfig_ordering (d : Document) (s : State) :
  ordered (config s) ->
  (ordered (config (exec (updateConfig d) s)) <->
   ~ exists v : Z,
       parseInt (minIntervalEl d) = Int v /\ 10 <= v /\ maxInterval (config s) < v /\
       forall w : Z, parseInt (maxIntervalEl d) = Int w -> w < v).
Proof.
  unfold ordered, exec. rewrite updateConfig_run. cbn [fst snd withConfig config].
  unfold updateConfigOf, applyConfig.
  destruct (config s) as [cmin cmax cb]. cbn [minInterval maxInterval].
  intros Hord.
  destruct (parseInt (minIntervalEl d)) as [|a];
    destruct (parseInt (maxIntervalEl d)) as [|b];
    destruct (parseInt (batchSizeEl d)) as [|n];
    config_cases;
    (split;
     [ intros Hle (v & Hv & H10 & Hgt & Hmax);
       try discriminate Hv; injection Hv as <-;
       try (specialize (Hmax _ eq_refl)); lia
     | intros Hno; idtac ]).
  all: try lia.
  all: destruct (Z_le_gt_dec a cmax) as [Hle|Hgt]; [lia|].
  all: exfalso; apply Hno; exists a; repeat split; try lia.
  all: intros w Hw; try discriminate Hw; injection Hw as <-; lia.
Qed.

Lemma updateConfig_ordering_witness :
  ordered (config (initialState (fun _ => 0%Q))) /\
  (ordered (config (exec (updateConfig {| minIntervalEl := Some "2000";
                                          maxIntervalEl := Some "3000";
                                          batchSizeEl := None |})
                      (initialState (fun _ => 0%Q)))) <->
   ~ exists v : Z,
       parseInt (Some "2000") = Int v /\ 10 <= v /\ 1000 < v /\
       forall w : Z, parseInt (Some "3000") = Int w -> w < v).
Proof.
  split.
  - unfold ordered. cbn. lia.
  - apply (updateConfig_ordering
             {| minIntervalEl := Some "2000"; maxIntervalEl := Some "3000";
                batchSizeEl := None |} (initialState (fun _ => 0%Q))).
    unfold ordered. cbn. lia.
Defined.

(** ** The delay of the next cycle, whatever the configuration *)



(** The browser takes a whole delay within the range of a timer, and
    not below 4 ms, as it is. *)
Lemma toLong_inject_Z (d : Z) :
  0 <= d <= 2147483647 -> toLong (inject_Z d) = d.
Proof.
  intros Hd. unfold toLong, truncate. cbv zeta.
  assert (Hpos : Qle_bool 0 (inject_Z d) = true).
  { apply Qle_bool_iff. unfold Qle, inject_Z. cbn [Qnum Qden]. lia. }
  rewrite Hpos, Qfloor_Z.
  change (2 ^ 32) with 4294967296. change (2 ^ 31) with 2147483648.
  rewrite Z.mod_small by lia.
  destruct (Z.leb_spec 2147483648 d); [lia | reflexivity].
Qed.

Lemma timeoutOf_inject_Z (n : nat) (d : Z) :
  4 <= d <= 2147483647 -> timeoutOf n (inject_Z d) = d.
Proof.
  intros Hd. unfold timeoutOf. cbv zeta. rewrite toLong_inject_Z by lia.
  destruct (Z.ltb_spec d 0); [lia|].
  destruct (Z.ltb_spec d 4); [lia|].
  rewrite andb_false_r. reflexivity.
Qed.



(** The completion of a request runs when its duration has elapsed: a
    duration of [[50, 549]] is a delay the browser takes as it is. *)
Lemma primaryTimer_fires (s : State) :
  unitDraws s -> fires (primaryTimer s) = due (primaryTimer s).
Proof.
  intros Hdraws. pose proof (duration_range s Hdraws) as Hd.
  unfold primaryTimer. cbn [fires due].
  rewrite timeoutOf_inject_Z by lia. reflexivity.
Qed.

(** An interval of 3000000000 ms passes both guards of [updateConfig];
    the delay a cycle then passes is 3000000000, which as a [long] is
    negative, and the timer of the next cycle fires at once. *)
Lemma next_cycle_at_once :
  let doc := {| minIntervalEl := Some "3000000000"; maxIntervalEl := Some "3000000000";
                batchSizeEl := None |} in
  let s := exec (run [inputConfig doc; clickStart]) (initialState (fun _ => 0%Q)) in
  config s = {| minInterval := 3000000000; maxInterval := 3000000000; batchSize := 1 |} /\
  exists t : Timer,
    pendingCycles s = [t] /\
    due t = (now s + inject_Z 3000000000)%Q /\
    fires t = now s.
Proof.
  cbv zeta. split; [vm_compute; reflexivity|].
  eexists. split; [vm_compute; reflexivity|]. split; reflexivity.
Qed.

(** ** What a request is made of *)

(** X6: for a draw of [[0,1)] and an array that is not empty,
    [randomElement] returns an element of the array: the index
    [floor(x * length)] stays in range and [undefined] is never read. *)
Theorem randomElement_in_array {A : Type} (undef : A) (arr : list A) (s : State) :
  unitDraws s ->
  arr <> [] ->
  In (result (randomElement undef arr) s) arr.
Proof.
  intros Hdraws Harr. unfold randomElement.
  rewrite result_bind. cbn [result ret random fst snd].
  apply nth_In.
  assert (Hlen : 0 < Z.of_nat (List.length arr))
    by (destruct arr; [contradiction | cbn [List.length]; lia]).
  pose proof (floorScaled_bounds (rng s (draws s)) _ (Hdraws _) Hlen). lia.
Qed.

Lemma randomElement_in_array_witness :
  In (result (randomElement 0 statusCodes) (initialState (fun _ => 3 # 4))) statusCodes.
Proof.
  apply (randomElement_in_array 0 statusCodes (initialState (fun _ => 3 # 4))).
  - intros n. cbn. split; [discriminate | reflexivity].
  - discriminate.
Defined.

Lemma pick_in_array {A : Type} (undef : A) (arr : list A) (x : Q) :
  (0 <= x < 1)%Q -> arr <> [] ->
  In (nth (Z.to_nat (floorScaled x (Z.of_nat (List.length arr)))) arr undef) arr.
Proof.
  intros Hx Harr. apply nth_In.
  assert (Hlen : 0 < Z.of_nat (List.length arr))
    by (destruct arr; [contradiction | cbn [List.length]; lia]).
  pose proof (floorScaled_bounds x _ Hx Hlen). lia.
Qed.

(** X7: the request [generateSpan] hands to its completion timer has
    its endpoint, method and status code among the candidates (so its
    status is one of 200, 201, 204, 400, 404, 500), and it is classified
    as an error exactly for 400, 404 and 500. *)
Theorem generated_request_fields (s : State) :
  unitDraws s ->
  exists (r : Request) (t : Timer) (cs : list Timer),
    timers (exec generateSpan s) = (timers s ++ cs ++ [t])%list /\
    callback t = spanEndCb r /\
    In (endpoint r) endpoints /\
    In (method r) httpMethods /\
    In (statusCode r) [200; 201; 204; 400; 404; 500] /\
    (isError r = true <-> In (statusCode r) [400; 404; 500]).
Proof.
  intros Hdraws.
  exists (requestOf s), (primaryTimer s), (childTimers s).
  split; [apply generateSpan_timers|]. split; [reflexivity|].
  unfold requestOf. cbn [endpoint method statusCode isError].
  split; [apply pick_in_array; [apply Hdraws | discriminate]|].
  split; [apply pick_in_array; [apply Hdraws | discriminate]|].
  pose proof (pick_in_array 0 statusCodes (draw s 2) (Hdraws _) ltac:(discriminate)) as Hin.
  set (code := nth _ statusCodes 0) in *.
  cbn [statusCodes In] in Hin |- *.
  split.
  - intuition.
  - destruct Hin as [<-|[<-|[<-|[<-|[<-|[<-|[<-|[<-|[<-|[]]]]]]]]]]; cbn;
      split; intros H; try discriminate H; try reflexivity; intuition discriminate.
Qed.

Lemma generated_request_fields_witness :
  exists (r : Request) (t : Timer) (cs : list Timer),
    timers (exec generateSpan (initialState (fun _ => 3 # 4)))
    = (timers (initialState (fun _ => 3 # 4)) ++ cs ++ [t])%list /\
    callback t = spanEndCb r /\
    In (endpoint r) endpoints /\
    In (method r) httpMethods /\
    In (statusCode r) [200; 201; 204; 400; 404; 500] /\
    (isError r = true <-> In (statusCode r) [400; 404; 500]).
Proof.
  apply (generated_request_fields (initialState (fun _ => 3 # 4))).
  intros n. cbn. split; [discriminate | reflexivity].
Defined.

(** X8: the callback that ends a child span attaches one event, with
    an affected-row count of [[0, 99]], ends that span, and leaves every
    variable of the script as it was (only one random draw is used). *)
Theorem childEnd_completes (c : Span) (s : State) :
  unitDraws s ->
  exec (childEnd c) s = withDraws (S (draws s)) s /\
  exists rows : Z,
    0 <= rows <= 99 /\
    effects (childEnd c) s
    = [AddEvent c "Query executed" [("db.rows_affected", ANum rows)]; EndSpan c].
Proof.
  intros Hdraws. split; [reflexivity|].
  exists (floorScaled (rng s (draws s)) 100). split; [|reflexivity].
  pose proof (floorScaled_bounds (rng s (draws s)) 100 (Hdraws _) ltac:(lia)). lia.
Qed.

Lemma childEnd_completes_witness :
  exec (childEnd 1%nat) (initialState (fun _ => 3 # 4))
  = withDraws 1 (initialState (fun _ => 3 # 4)) /\
  exists rows : Z,
    0 <= rows <= 99 /\
    effects (childEnd 1%nat) (initialState (fun _ => 3 # 4))
    = [AddEvent 1%nat "Query executed" [("db.rows_affected", ANum rows)]; EndSpan 1%nat].
Proof.
  apply (childEnd_completes 1%nat (initialState (fun _ => 3 # 4))).
  intros n. cbn. split; [discriminate | reflexivity].
Defined.

(** X9: every span [generateSpan] starts is ended by one of the timers
    it sets, and by that one only: the spans started (the primary one
    and, when opened, its child) are, up to order, the spans the new
    timers end, each once, in whatever states they later fire. *)
Theorem spans_started_are_ended (s : State) (firesIn : Timer -> State) :
  exists new : list Timer,
    timers (exec generateSpan s) = (timers s ++ new)%list /\
    NoDup (startedSpans (effects generateSpan s)) /\
    Permutation
      (startedSpans (effects generateSpan s))
      (flat_map (fun t => endedSpans (effects (runCallback (callback t)) (firesIn t))) new).
Proof.
  exists (childTimers s ++ [primaryTimer s])%list.
  split; [apply generateSpan_timers|].
  assert (Hstarted : startedSpans (effects generateSpan s)
                     = nextSpan s :: (if opensChild s then [S (nextSpan s)] else [])).
  { rewrite generateSpan_effects. unfold generatedEffects, startedSpans. cbn zeta.
    rewrite !flat_map_app. cbn [flat_map app].
    assert (Hev : flat_map (fun e => match e with StartSpan sp _ _ _ => [sp] | _ => [] end)
                    (generatedEvents s) = []).
    { unfold generatedEvents. induction (seq 0 (Z.to_nat (numEventsOf s))) as [|k l IH];
        [reflexivity | cbn [map flat_map eventOf app]; exact IH]. }
    rewrite Hev. destruct (opensChild s); reflexivity. }
  assert (Hended : forall r s', endedSpans (effects (spanEnd r) s') = [span r]).
  { intros r s'. rewrite spanEnd_effects. unfold completionEffects, endedSpans.
    rewrite !flat_map_app.
    destruct (isError r); destruct (spanCount s' mod 10 =? 0); reflexivity. }
  rewrite Hstarted, flat_map_app. unfold childTimers, primaryTimer.
  destruct (opensChild s); cbn [flat_map callback runCallback app].
  - rewrite Hended. cbn [requestOf span app]. split.
    + repeat constructor; cbn [In]; intuition lia.
    + apply perm_swap.
  - rewrite Hended. cbn [requestOf span app]. split.
    + repeat constructor; cbn [In]; intuition.
    + apply Permutation_refl.
Qed.

(** ** Start and Stop pressed twice *)

Lemma startLoadTest_isRunning (s : State) : isRunning (exec startLoadTest s) = true.
Proof.
  destruct (isRunning s) eqn:Hrun.
  - rewrite (startLoadTest_running s Hrun). exact Hrun.
  - rewrite (startLoadTest_exec s Hrun). apply (started_cycle s).
Qed.

Lemma startLoadTest_running_run (s : State) :
  isRunning s = true ->
  startLoadTest s = (tt, s, [ConsoleLog "Load test already running"]).
Proof. intros Hrun. unfold startLoadTest, bind, gets. rewrite Hrun. reflexivity. Qed.

Lemma stopLoadTest_stopped_run (s : State) :
  isRunning s = false ->
  stopLoadTest s = (tt, s, [ConsoleLog "Load test not running"]).
Proof. intros Hrun. unfold stopLoadTest, bind, gets. rewrite Hrun. reflexivity. Qed.

Lemma stopLoadTest_isRunning (s : State) : isRunning (exec stopLoadTest s) = false.
Proof.
  rewrite stopLoadTest_exec. destruct (isRunning s) eqn:Hrun; [|exact Hrun].
  destruct (intervalId s) as [i|]; [destruct (i =? 0)|]; reflexivity.
Qed.

(** X10: a second Start is a no-op: after [startLoadTest] the
    generator is running, and calling it again changes no variable,
    sets no timer, generates nothing, and only writes one console
    line. *)
Theorem startLoadTest_twice (s : State) :
  exec (startLoadTest ;; startLoadTest) s = exec startLoadTest s /\
  effects (startLoadTest ;; startLoadTest) s
  = (effects startLoadTest s ++ [ConsoleLog "Load test already running"])%list.
Proof.
  pose proof (startLoadTest_running_run _ (startLoadTest_isRunning s)) as Hagain.
  rewrite exec_bind, effects_bind. split.
  - unfold exec at 1. rewrite Hagain. reflexivity.
  - f_equal. unfold effects. rewrite Hagain. reflexivity.
Qed.

(** X11: a second Stop is a no-op: after [stopLoadTest] the generator
    is stopped, and calling it again changes no variable, emits no
    second "stopped" event, and only writes one console line. *)
Theorem stopLoadTest_twice (s : State) :
  exec (stopLoadTest ;; stopLoadTest) s = exec stopLoadTest s /\
  effects (stopLoadTest ;; stopLoadTest) s
  = (effects stopLoadTest s ++ [ConsoleLog "Load test not running"])%list.
Proof.
  pose proof (stopLoadTest_stopped_run _ (stopLoadTest_isRunning s)) as Hagain.
  rewrite exec_bind, effects_bind. split.
  - unfold exec at 1. rewrite Hagain. reflexivity.
  - f_equal. unfold effects. rewrite Hagain. reflexivity.
Qed.

(** ** The total count *)

Lemma scheduleNext_spanCount (s : State) :
  spanCount s <= spanCount (exec scheduleNext s).
Proof.
  destruct (isRunning s) eqn:Hrun.
  - rewrite (scheduleNext_exec s Hrun). cbn zeta.
    cbn [withIntervalId withNextTimerId withTimers withDraws spanCount].
    unfold afterBatch, batch.
    destruct (forLoop_generateSpan_frame (Z.to_nat (batchSize (config s))) 0 s)
      as (_ & _ & _ & _ & _ & Hs & _).
    rewrite Hs. lia.
  - unfold exec. rewrite (scheduleNext_stopped s Hrun). cbn [fst snd]. lia.
Qed.

(** X12: the total count never goes down except by a Start on a
    stopped generator: a Stop, a configuration update, a timer (a new
    cycle or a completion), or a Start while running leaves [spanCount]
    at least as large as it was. *)
Theorem spanCount_never_decreases (a : Action) (s : State) :
  (a = clickStart -> isRunning s = true) ->
  spanCount s <= spanCount (exec (handle a) s).
Proof.
  intros Hstart. destruct a; cbn [handle].
  - rewrite (startLoadTest_running s (Hstart eq_refl)). lia.
  - rewrite stopLoadTest_spanCount. lia.
  - unfold exec. rewrite updateConfig_run. cbn [fst snd withConfig spanCount]. lia.
  - rewrite timerFires_exec. destruct (earliest (timers s)) as [t|]; [|lia].
    change (spanCount (withNesting O ?x)) with (spanCount x).
    destruct (callback t) as [|c|r]; cbn [runCallback].
    + etransitivity; [|apply scheduleNext_spanCount].
      unfold firedState. cbn [withNesting withNow withTimers spanCount]. lia.
    + change (spanCount (exec (childEnd c) ?x)) with (spanCount x).
      unfold firedState. cbn [withNesting withNow withTimers spanCount]. lia.
    + unfold exec. rewrite spanEnd_run. unfold firedState.
      cbn [fst snd withActiveSpans withNesting withNow withTimers spanCount]. lia.
Qed.

Lemma spanCount_never_decreases_witness :
  spanCount (exec startLoadTest (initialState (fun _ => 0%Q)))
  <= spanCount (exec (handle timerFired) (exec startLoadTest (initialState (fun _ => 0%Q)))).
Proof.
  apply (spanCount_never_decreases timerFired
           (exec startLoadTest (initialState (fun _ => 0%Q)))).
  intros H. discriminate H.
Defined.

(** ** What the script writes *)

Section EmitsOnly.

Variable P : Effect -> Prop.

Lemma emitsOnly_ret {A} (a : A) : emitsOnly P (ret a).
Proof. intros s. constructor. Qed.

Lemma emitsOnly_gets {A} (f : State -> A) : emitsOnly P (gets f).
Proof. intros s. constructor. Qed.

Lemma emitsOnly_modify (f : State -> State) : emitsOnly P (modify f).
Proof. intros s. constructor. Qed.

Lemma emitsOnly_random : emitsOnly P random.
Proof. intros s. constructor. Qed.

Lemma emitsOnly_setTimeout (cb : Callback) (delay : Q) : emitsOnly P (setTimeout cb delay).
Proof. intros s. constructor. Qed.

Lemma emitsOnly_emit (e : Effect) : P e -> emitsOnly P (emit e).
Proof. intros He s. constructor; [exact He | constructor]. Qed.

Lemma emitsOnly_startSpan (parent : option Span) (name : string) (attrs : Attributes) :
  (forall sp, P (StartSpan sp parent name attrs)) ->
  emitsOnly P (startSpan parent name attrs).
Proof. intros He s. constructor; [apply He | constructor]. Qed.

Lemma emitsOnly_bind {A B} (m : M A) (k : A -> M B) :
  emitsOnly P m -> (forall a, emitsOnly P (k a)) -> emitsOnly P (bind m k).
Proof.
  intros Hm Hk s. rewrite effects_bind. apply Forall_app. split; [apply Hm | apply Hk].
Qed.

Lemma emitsOnly_forLoop (body : Z -> M unit) (n : nat) :
  (forall i, emitsOnly P (body i)) -> forall i, emitsOnly P (forLoop n i body).
Proof.
  intros Hbody. induction n as [|n IH]; intros i.
  - apply emitsOnly_ret.
  - cbn [forLoop]. apply emitsOnly_bind; [apply Hbody | intros _; apply IH].
Qed.

End EmitsOnly.

(** Splits a statement into its steps; what is left are the conditions
    on the outputs it emits. *)
Ltac emits_only :=
  repeat first
    [ apply emitsOnly_ret | apply emitsOnly_gets | apply emitsOnly_modify
    | apply emitsOnly_random | apply emitsOnly_setTimeout
    | apply emitsOnly_forLoop; intros ?
    | apply emitsOnly_emit
    | apply emitsOnly_startSpan; intros ?
    | apply emitsOnly_bind; [|intros ?]
    | match goal with
      | |- emitsOnly _ (if ?b then _ else _) => destruct b
      | |- emitsOnly _ (match ?x with _ => _ end) => destruct x
      end ].

Lemma emitsOnly_run (P : Effect -> Prop) :
  emitsOnly P startLoadTest -> emitsOnly P stopLoadTest ->
  (forall d, emitsOnly P (updateConfig d)) -> emitsOnly P timerFires ->
  forall script, emitsOnly P (run script).
Proof.
  intros Hstart Hstop Hupdate Hfire script.
  induction script as [|a script IH].
  - apply emitsOnly_ret.
  - cbn [run]. apply emitsOnly_bind; [|intros _; exact IH].
    destruct a; cbn [handle]; auto.
Qed.

(** X13: every log record the script emits, whatever happens to the
    page, has severity INFO (9) or ERROR (17) with the matching text,
    and carries ['log.source' = 'load-testing'] as its first attribute. *)
Theorem logs_well_formed (script : list Action) (s : State) :
  Forall (fun e => wellFormedLog e = true) (effects (run script) s).
Proof.
  revert s. change (emitsOnly (fun e => wellFormedLog e = true) (run script)).
  apply emitsOnly_run.
  - unfold startLoadTest, updateUI, emitLog, scheduleNext, generateSpan, addEvent,
      randomElement, randomDuration, emitLog.
    emits_only; reflexivity.
  - unfold stopLoadTest, updateUI, emitLog, clearTimeout. emits_only; reflexivity.
  - intros d. unfold updateConfig. emits_only; reflexivity.
  - unfold timerFires, clearTimeout, runCallback, scheduleNext, generateSpan, addEvent,
      randomElement, randomDuration, childEnd, spanEnd, emitLog.
    emits_only; reflexivity.
Qed.

(** ** One cycle at a time *)

Lemma removeTimer_split (t : Timer) (ts : list Timer) :
  NoDup (map timerId ts) -> In t ts ->
  exists l1 l2 : list Timer,
    ts = (l1 ++ t :: l2)%list /\ removeTimer (timerId t) ts = (l1 ++ l2)%list.
Proof.
  intros Hnd Hin. destruct (in_split t ts Hin) as (l1 & l2 & ->).
  exists l1, l2. split; [reflexivity|].
  rewrite map_app in Hnd. cbn [map] in Hnd.
  pose proof (NoDup_remove_2 _ _ _ Hnd) as Hnot.
  unfold removeTimer. rewrite filter_app. cbn [List.filter].
  rewrite Z.eqb_refl. cbn [negb].
  fold (removeTimer (timerId t) l1). fold (removeTimer (timerId t) l2).
  rewrite !removeTimer_absent; [reflexivity| |];
    intros Hid; apply Hnot; apply in_or_app; [right|left]; exact Hid.
Qed.

Lemma removeTimer_filter (p : Timer -> bool) (t : Timer) (ts : list Timer) :
  NoDup (map timerId ts) -> In t ts ->
  (p t = false -> List.filter p (removeTimer (timerId t) ts) = List.filter p ts) /\
  (List.filter p ts = [t] -> List.filter p (removeTimer (timerId t) ts) = []) /\
  List.length ts = S (List.length (removeTimer (timerId t) ts)).
Proof.
  intros Hnd Hin. destruct (removeTimer_split t ts Hnd Hin) as (l1 & l2 & -> & ->).
  rewrite !filter_app, !length_app. cbn [List.filter List.length].
  repeat split.
  - intros ->. reflexivity.
  - destruct (p t) eqn:Hp; intros Hone.
    + destruct (List.filter p l1) as [|u l]; cbn [app] in Hone.
      * injection Hone as Hl2. rewrite Hl2. reflexivity.
      * injection Hone as _ Hrest. destruct l; discriminate Hrest.
    + assert (Hin' : In t (List.filter p l1 ++ List.filter p l2))
        by (rewrite Hone; left; reflexivity).
      apply in_app_or in Hin'. destruct Hin' as [H|H];
        apply filter_In in H; destruct H as [_ H]; congruence.
  - lia.
Qed.

Lemma numbered_ext (s s' : State) :
  timers s' = timers s -> nextTimerId s' = nextTimerId s -> numbered s -> numbered s'.
Proof.
  intros Ht Hn [Hr Hp Hu]. constructor; rewrite ?Ht, ?Hn; assumption.
Qed.

Lemma numbered_removed (i : Z) (s s' : State) :
  timers s' = removeTimer i (timers s) -> nextTimerId s' = nextTimerId s ->
  numbered s -> numbered s'.
Proof.
  intros Ht Hn [Hr Hp Hu]. constructor; rewrite ?Ht, ?Hn.
  - intros t Hin. apply Hr. apply (removeTimer_In i _ t Hin).
  - exact Hp.
  - apply removeTimer_NoDup. exact Hu.
Qed.

Lemma generateSpan_numbered (s : State) :
  numbered s ->
  numbered (exec generateSpan s) /\
  pendingCycles (exec generateSpan s) = pendingCycles s.
Proof.
  intros [Hr Hp Hu]. rewrite generateSpan_exec.
  assert (Hnew : forall t, In t (childTimers s ++ [primaryTimer s])%list ->
                   nextTimerId s <= timerId t < nextTimerId (generatedState s)).
  { intros t. unfold childTimers, primaryTimer, generatedState. cbn [nextTimerId].
    destruct (opensChild s); cbn [app In];
      intros [<-|[<-|[]]] || intros [<-|[]]; cbn [timerId]; lia. }
  split; [constructor|].
  - intros t Hin. cbn [generatedState timers] in Hin.
    apply in_app_or in Hin. destruct Hin as [Hin|Hin].
    + specialize (Hr t Hin). unfold generatedState. cbn [nextTimerId].
      destruct (opensChild s); lia.
    + specialize (Hnew t Hin). lia.
  - unfold generatedState. cbn [nextTimerId]. destruct (opensChild s); lia.
  - cbn [generatedState timers]. rewrite map_app. apply NoDup_app; [exact Hu| |].
    + unfold childTimers, primaryTimer.
      destruct (opensChild s); cbn [app map timerId]; repeat constructor; cbn [In]; lia.
    + intros i Hin Hin'. apply in_map_iff in Hin. destruct Hin as [t [<- Hin]].
      apply in_map_iff in Hin'. destruct Hin' as [u [Heq Hin']].
      specialize (Hr t Hin). specialize (Hnew u Hin'). lia.
  - unfold pendingCycles, generatedState, childTimers, primaryTimer. cbn [timers].
    rewrite !filter_app. destruct (opensChild s); cbn; rewrite app_nil_r; reflexivity.
Qed.

Lemma forLoop_generateSpan_numbered (n : nat) :
  forall (i : Z) (s : State),
    numbered s ->
    numbered (exec (forLoop n i (fun _ => generateSpan)) s) /\
    pendingCycles (exec (forLoop n i (fun _ => generateSpan)) s) = pendingCycles s.
Proof.
  induction n as [|n IH]; intros i s Hs.
  - split; [exact Hs | reflexivity].
  - cbn [forLoop]. rewrite exec_bind.
    destruct (generateSpan_numbered s Hs) as [Hs1 Hc1].
    destruct (IH (i + 1) _ Hs1) as [Hs2 Hc2].
    split; [exact Hs2 | rewrite Hc2; exact Hc1].
Qed.

Lemma scheduleNext_orderly (s : State) :
  numbered s -> pendingCycles s = [] -> isRunning s = true ->
  orderly (exec scheduleNext s).
Proof.
  intros Hs Hnone Hrun. rewrite (scheduleNext_exec s Hrun). cbn zeta.
  destruct (forLoop_generateSpan_numbered (Z.to_nat (batchSize (config s))) 0 s Hs)
    as [[Hr Hp Hu] Hc].
  destruct (forLoop_generateSpan_frame (Z.to_nat (batchSize (config s))) 0 s)
    as (_ & Hrun' & _).
  cbn zeta in Hrun'.
  fold (batch (Z.to_nat (batchSize (config s)))) in Hr, Hp, Hu, Hc, Hrun'.
  fold (afterBatch s) in Hr, Hp, Hu, Hc, Hrun'.
  unfold nextCycleTimer. cbn zeta. set (sb := afterBatch s) in *.
  constructor; [constructor|..];
    cbn [withIntervalId withNextTimerId withTimers withDraws timers nextTimerId intervalId
         isRunning].
  - intros t Hin. apply in_app_or in Hin. destruct Hin as [Hin|[<-|[]]].
    + specialize (Hr t Hin). lia.
    + cbn [timerId]. lia.
  - lia.
  - rewrite map_app. apply NoDup_app; [exact Hu| |].
    + cbn [map]. repeat constructor. intros [].
    + intros i Hin [<-|[]]. apply in_map_iff in Hin. destruct Hin as [t [Heq Hin]].
      specialize (Hr t Hin). cbn [timerId] in Heq. lia.
  - intros _. eexists. split.
    + unfold pendingCycles.
      cbn [withIntervalId withNextTimerId withTimers withDraws timers].
      rewrite filter_app. fold (pendingCycles sb). rewrite Hc, Hnone. reflexivity.
    + reflexivity.
  - rewrite Hrun', Hrun. discriminate.
Qed.

Lemma initialState_orderly (r : nat -> Q) : orderly (initialState r).
Proof.
  constructor; [constructor|..]; cbn; try lia; try constructor; try contradiction;
    try discriminate; intros; split; reflexivity.
Qed.

Lemma orderly_ext (s s' : State) :
  timers s' = timers s -> nextTimerId s' = nextTimerId s ->
  isRunning s' = isRunning s -> intervalId s' = intervalId s ->
  orderly s -> orderly s'.
Proof.
  intros Ht Hn Hr Hi [Hnum Hrun Hstop].
  constructor; unfold pendingCycles; rewrite ?Ht, ?Hr, ?Hi;
    [apply (numbered_ext s s' Ht Hn Hnum) | exact Hrun | exact Hstop].
Qed.

Lemma fired_other_orderly (s s' : State) (t : Timer) :
  orderly s -> In t (timers s) -> isCycle t = false ->
  timers s' = removeTimer (timerId t) (timers s) -> nextTimerId s' = nextTimerId s ->
  isRunning s' = isRunning s -> intervalId s' = intervalId s ->
  orderly s'.
Proof.
  intros [Hnum Hrun Hstop] Hin Hcb Ht Hn Hr Hi.
  destruct (removeTimer_filter isCycle t (timers s) (ids_unique s Hnum) Hin) as (Hsame & _ & _).
  constructor; unfold pendingCycles; rewrite ?Ht, ?Hr, ?Hi, ?(Hsame Hcb);
    [apply (numbered_removed (timerId t) s s' Ht Hn Hnum) | exact Hrun | exact Hstop].
Qed.

Lemma startLoadTest_orderly (s : State) : orderly s -> orderly (exec startLoadTest s).
Proof.
  intros Hs. destruct (isRunning s) eqn:Hrun.
  - rewrite (startLoadTest_running s Hrun). exact Hs.
  - rewrite (startLoadTest_exec s Hrun).
    destruct Hs as [Hnum _ Hstop]. destruct (Hstop Hrun) as [Hnone _].
    apply scheduleNext_orderly; [|exact Hnone|reflexivity].
    apply (numbered_ext s); [reflexivity..|exact Hnum].
Qed.

Lemma stopLoadTest_orderly (s : State) : orderly s -> orderly (exec stopLoadTest s).
Proof.
  intros Hs. rewrite stopLoadTest_exec.
  destruct (isRunning s) eqn:Hrun; [|exact Hs].
  destruct Hs as [Hnum Hcyc _]. destruct (Hcyc Hrun) as (t & Hone & Hint).
  assert (Hin : In t (timers s)).
  { assert (H : In t (pendingCycles s)) by (rewrite Hone; left; reflexivity).
    apply filter_In in H. apply H. }
  pose proof (ids_range s Hnum t Hin) as Hid.
  rewrite Hint. destruct (Z.eqb_spec (timerId t) 0) as [H0|_]; [lia|].
  destruct (removeTimer_filter isCycle t (timers s) (ids_unique s Hnum) Hin) as (_ & Hgone & _).
  constructor; cbn [withIntervalId withTimers withIsRunning isRunning intervalId].
  - apply (numbered_removed (timerId t) s); [reflexivity..|exact Hnum].
  - discriminate.
  - intros _. split; [|reflexivity]. unfold pendingCycles.
    cbn [withIntervalId withTimers withIsRunning timers]. apply Hgone. exact Hone.
Qed.

Lemma timerFires_orderly (s : State) : orderly s -> orderly (exec timerFires s).
Proof.
  intros Hs. rewrite timerFires_exec.
  destruct (earliest (timers s)) as [t|] eqn:He; [|exact Hs].
  pose proof (earliest_In _ _ He) as Hin.
  apply (orderly_ext (exec (runCallback (callback t)) (firedState t s)));
    [reflexivity..|].
  destruct (callback t) as [|c|r] eqn:Hcb; cbn [runCallback].
  - assert (Hcycle : isCycle t = true) by (unfold isCycle; rewrite Hcb; reflexivity).
    assert (Hpending : In t (pendingCycles s))
      by (apply filter_In; split; assumption).
    destruct Hs as [Hnum Hcyc Hstop].
    destruct (isRunning s) eqn:Hrun.
    2:{ destruct (Hstop eq_refl) as [Hnone _]. rewrite Hnone in Hpending. contradiction. }
    destruct (Hcyc eq_refl) as (u & Hone & _).
    rewrite Hone in Hpending. destruct Hpending as [->|[]].
    destruct (removeTimer_filter isCycle t (timers s) (ids_unique s Hnum) Hin)
      as (_ & Hgone & _).
    apply scheduleNext_orderly.
    + apply (numbered_removed (timerId t) s); [reflexivity..|exact Hnum].
    + apply Hgone. exact Hone.
    + exact Hrun.
  - apply (fired_other_orderly s _ t Hs Hin); try reflexivity.
    unfold isCycle. rewrite Hcb. reflexivity.
  - unfold exec. rewrite spanEnd_run. cbn [fst snd].
    apply (fired_other_orderly s _ t Hs Hin); try reflexivity.
    unfold isCycle. rewrite Hcb. reflexivity.
Qed.

Lemma run_orderly (script : list Action) :
  forall s : State, orderly s -> orderly (exec (run script) s).
Proof.
  induction script as [|a script IH]; intros s Hs.
  - exact Hs.
  - cbn [run]. rewrite exec_bind. apply IH.
    destruct a; cbn [handle].
    + apply startLoadTest_orderly. exact Hs.
    + apply stopLoadTest_orderly. exact Hs.
    + unfold exec. rewrite updateConfig_run. cbn [fst snd].
      revert Hs. apply orderly_ext; reflexivity.
    + apply timerFires_orderly. exact Hs.
Qed.

(** X14: in every state the page can reach, a running generator has
    exactly one cycle pending, the timer [intervalId] names, and a
    stopped one has none, [intervalId] being [null]: Start, Stop and
    the timers never leave two cycles running side by side, nor a
    running generator without its next cycle. *)
Theorem one_cycle_at_a_time (r : nat -> Q) (script : list Action) :
  (isRunning (exec (run script) (initialState r)) = true ->
   exists t : Timer,
     pendingCycles (exec (run script) (initialState r)) = [t] /\
     intervalId (exec (run script) (initialState r)) = Some (timerId t)) /\
  (isRunning (exec (run script) (initialState r)) = false ->
   pendingCycles (exec (run script) (initialState r)) = [] /\
   intervalId (exec (run script) (initialState r)) = None).
Proof.
  destruct (run_orderly script _ (initialState_orderly r)) as [_ Hrun Hstop].
  split; assumption.
Qed.

(** ** After Stop *)

Lemma earliest_nonempty (ts : list Timer) :
  ts <> [] -> exists t, earliest ts = Some t.
Proof.
  destruct ts as [|u ts]; [contradiction|]. intros _. cbn [earliest].
  destruct (earliest ts) as [v|]; [destruct (Qle_bool (fires u) (fires v))|]; eexists; reflexivity.
Qed.

Lemma timerFires_stopped (s : State) :
  orderly s -> isRunning s = false -> timers s <> [] ->
  exists t : Timer,
    In t (timers s) /\
    timers (exec timerFires s) = removeTimer (timerId t) (timers s) /\
    isRunning (exec timerFires s) = false /\
    spanCount (exec timerFires s) = spanCount s /\
    activeSpans (exec timerFires s)
    = activeSpans s - (if isCompletion t then 1 else 0).
Proof.
  intros [Hnum _ Hstop] Hrun Hne. destruct (Hstop Hrun) as [Hnone _].
  destruct (earliest_nonempty _ Hne) as [t He].
  pose proof (earliest_In _ _ He) as Hin.
  exists t. split; [exact Hin|].
  rewrite timerFires_exec, He. unfold isCompletion.
  destruct (callback t) as [|c|r] eqn:Hcb; cbn [runCallback].
  - exfalso. assert (H : In t (pendingCycles s)).
    { apply filter_In. split; [exact Hin|]. unfold isCycle. rewrite Hcb. reflexivity. }
    rewrite Hnone in H. contradiction.
  - change (exec (childEnd c) ?x) with (withDraws (S (draws x)) x). unfold firedState.
    cbn [withDraws withNesting withNow withTimers timers isRunning spanCount activeSpans
         draws].
    repeat split; try assumption; lia.
  - unfold exec. rewrite spanEnd_run. unfold firedState.
    cbn [fst snd withActiveSpans withNesting withNow withTimers timers isRunning spanCount
         activeSpans].
    repeat split; try assumption; lia.
Qed.

Lemma drained (n : nat) :
  forall s : State,
    orderly s -> isRunning s = false -> List.length (timers s) = n ->
    timers (exec (run (repeat timerFired n)) s) = [] /\
    isRunning (exec (run (repeat timerFired n)) s) = false /\
    spanCount (exec (run (repeat timerFired n)) s) = spanCount s /\
    activeSpans (exec (run (repeat timerFired n)) s)
    = activeSpans s - Z.of_nat (inFlight s).
Proof.
  induction n as [|n IH]; intros s Hs Hrun Hlen.
  - cbn [repeat run exec ret fst snd]. unfold inFlight.
    destruct (timers s); [|discriminate Hlen]. cbn. repeat split; try assumption; lia.
  - cbn [repeat run]. rewrite exec_bind. cbn [handle].
    assert (Hne : timers s <> []) by (destruct (timers s); [discriminate Hlen | discriminate]).
    destruct (timerFires_stopped s Hs Hrun Hne) as (t & Hin & Ht & Hr & Hc & Ha).
    pose proof (ids_unique s (is_numbered s Hs)) as Hnd.
    destruct (removeTimer_filter isCompletion t (timers s) Hnd Hin) as (_ & _ & Hlen').
    pose proof (removeTimer_fired t (timers s) Hnd Hin) as Hfl.
    destruct (IH (exec timerFires s) (timerFires_orderly s Hs) Hr
                ltac:(rewrite Ht; lia)) as (Ht2 & Hr2 & Hc2 & Ha2).
    rewrite Ht2, Hr2, Hc2, Ha2, Hc, Ha. unfold inFlight in *. rewrite Ht.
    repeat split. destruct (isCompletion t); lia.
Qed.

(** X15: once the generator is stopped, the timers that are left are
    completions only, and they run out: after as many firings as there
    are pending timers none is left, no request has been generated
    (the total is unchanged, the generator still stopped), and
    [activeSpans] has gone down by the number of requests that were in
    flight. *)
Theorem settles_after_stop (r : nat -> Q) (script : list Action) :
  isRunning (exec (run script) (initialState r)) = false ->
  timers (exec (run (repeat timerFired
                       (List.length (timers (exec (run script) (initialState r))))))
            (exec (run script) (initialState r))) = [] /\
  isRunning (exec (run (repeat timerFired
                          (List.length (timers (exec (run script) (initialState r))))))
               (exec (run script) (initialState r))) = false /\
  spanCount (exec (run (repeat timerFired
                          (List.length (timers (exec (run script) (initialState r))))))
               (exec (run script) (initialState r)))
  = spanCount (exec (run script) (initialState r)) /\
  activeSpans (exec (run (repeat timerFired
                            (List.length (timers (exec (run script) (initialState r))))))
                 (exec (run script) (initialState r)))
  = activeSpans (exec (run script) (initialState r))
    - Z.of_nat (inFlight (exec (run script) (initialState r))).
Proof.
  intros Hrun.
  apply drained; [apply run_orderly; apply initialState_orderly | exact Hrun | reflexivity].
Qed.

Lemma settles_after_stop_witness :
  timers (exec (run (repeat timerFired 1))
            (exec (run [clickStart; clickStop]) (initialState (fun _ => 0%Q)))) = [] /\
  isRunning (exec (run (repeat timerFired 1))
               (exec (run [clickStart; clickStop]) (initialState (fun _ => 0%Q)))) = false /\
  spanCount (exec (run (repeat timerFired 1))
               (exec (run [clickStart; clickStop]) (initialState (fun _ => 0%Q)))) = 1 /\
  activeSpans (exec (run (repeat timerFired 1))
                 (exec (run [clickStart; clickStop]) (initialState (fun _ => 0%Q))))
  = 1 - 1.
Proof.
  exact (settles_after_stop (fun _ => 0%Q) [clickStart; clickStop] eq_refl).
Defined.

(** ** The active-spans instrument *)

Lemma gaugeTotal_app (a b : list Effect) :
  gaugeTotal (a ++ b) = gaugeTotal a + gaugeTotal b.
Proof.
  induction a as [|e a IH]; cbn [app gaugeTotal fold_right]; [reflexivity|].
  fold (gaugeTotal (a ++ b)). fold (gaugeTotal a). rewrite IH. lia.
Qed.

Lemma gaugeTotal_events (l : list Effect) :
  Forall (fun e => isAddEvent e = true) l -> gaugeTotal l = 0.
Proof.
  induction 1 as [|e l He _ IH]; [reflexivity|].
  cbn [gaugeTotal fold_right]. fold (gaugeTotal l). rewrite IH.
  destruct e; try discriminate He. reflexivity.
Qed.

Lemma generateSpan_gauge (s : State) : gaugeTotal (effects generateSpan s) = 1.
Proof.
  rewrite generateSpan_effects. unfold generatedEffects. cbn zeta.
  rewrite !gaugeTotal_app, (gaugeTotal_events _ (generatedEvents_are_events s)).
  destruct (opensChild s); reflexivity.
Qed.

Lemma forLoop_generateSpan_gauge (n : nat) :
  forall (i : Z) (s : State),
    gaugeTotal (effects (forLoop n i (fun _ => generateSpan)) s) = Z.of_nat n /\
    inFlight (exec (forLoop n i (fun _ => generateSpan)) s) = (inFlight s + n)%nat.
Proof.
  induction n as [|n IH]; intros i s.
  - cbn. split; [reflexivity | lia].
  - cbn [forLoop]. rewrite effects_bind, exec_bind, gaugeTotal_app, generateSpan_gauge.
    rewrite generateSpan_exec.
    destruct (IH (i + 1) (generatedState s)) as [Hg Hf].
    rewrite Hg, Hf, inFlight_generated. split; lia.
Qed.

Lemma scheduleNext_gauge (s : State) :
  gaugeTotal (effects scheduleNext s)
  = Z.of_nat (inFlight (exec scheduleNext s)) - Z.of_nat (inFlight s).
Proof.
  destruct (isRunning s) eqn:Hrun.
  - rewrite (scheduleNext_effects s Hrun), (scheduleNext_exec s Hrun). cbn zeta.
    destruct (forLoop_generateSpan_gauge (Z.to_nat (batchSize (config s))) 0 s) as [Hg Hf].
    fold (batch (Z.to_nat (batchSize (config s)))) in Hg, Hf. fold (afterBatch s) in Hf.
    rewrite Hg. unfold inFlight in *.
    cbn [withIntervalId withNextTimerId withTimers withDraws timers].
    rewrite filter_app, length_app, Hf. cbn. lia.
  - unfold effects, exec. rewrite (scheduleNext_stopped s Hrun). cbn. lia.
Qed.

Lemma timerFires_effects (s : State) :
  effects timerFires s =
    match earliest (timers s) with
    | None => []
    | Some t => effects (runCallback (callback t)) (firedState t s)
    end.
Proof.
  unfold timerFires. rewrite effects_bind. cbn [result gets fst snd exec effects app].
  destruct (earliest (timers s)) as [t|]; [|reflexivity].
  unfold clearTimeout. rewrite !effects_bind.
  cbn [modify effects exec fst snd app]. rewrite app_nil_r. reflexivity.
Qed.

Lemma handle_gauge (a : Action) (s : State) :
  orderly s ->
  gaugeTotal (effects (handle a) s)
  = Z.of_nat (inFlight (exec (handle a) s)) - Z.of_nat (inFlight s).
Proof.
  intros Hs. destruct a; cbn [handle].
  - destruct (isRunning s) eqn:Hrun.
    + unfold effects, exec. rewrite (startLoadTest_running_run s Hrun). cbn. lia.
    + rewrite (startLoadTest_effects s Hrun), (startLoadTest_exec s Hrun).
      rewrite gaugeTotal_app, scheduleNext_gauge.
      change (inFlight (started s)) with (inFlight s). cbn. lia.
  - destruct (isRunning s) eqn:Hrun.
    + rewrite (stopLoadTest_effects s Hrun), stopLoadTest_exec, Hrun.
      destruct Hs as [Hnum Hcyc _]. destruct (Hcyc Hrun) as (t & Hone & Hint).
      assert (Hin : In t (pendingCycles s)) by (rewrite Hone; left; reflexivity).
      apply filter_In in Hin. destruct Hin as [Hin Hcycle].
      rewrite Hint. destruct (timerId t =? 0); [cbn; unfold inFlight; cbn; lia|].
      destruct (removeTimer_filter isCompletion t (timers s) (ids_unique s Hnum) Hin)
        as (Hsame & _ & _).
      unfold inFlight. cbn [withIntervalId withTimers withIsRunning timers].
      rewrite Hsame; [cbn; lia|].
      unfold isCycle in Hcycle. unfold isCompletion.
      destruct (callback t); [reflexivity | discriminate Hcycle | discriminate Hcycle].
    + unfold effects, exec. rewrite (stopLoadTest_stopped_run s Hrun). cbn. lia.
  - unfold effects, exec. rewrite updateConfig_run. cbn. unfold inFlight. cbn. lia.
  - rewrite timerFires_effects, timerFires_exec.
    destruct (earliest (timers s)) as [t|] eqn:He; [|cbn; lia].
    pose proof (earliest_In _ _ He) as Hin.
    pose proof (removeTimer_fired t (timers s) (ids_unique s (is_numbered s Hs)) Hin) as Hfl.
    assert (Hkind : isCompletion t = match callback t with spanEndCb _ => true | _ => false end)
      by reflexivity.
    change (inFlight (withNesting O ?x)) with (inFlight x).
    destruct (callback t) as [|c|r]; cbn [runCallback]; rewrite Hkind in Hfl.
    + rewrite scheduleNext_gauge.
      assert (H1 : inFlight (firedState t s) = inFlight s).
      { unfold inFlight, firedState. cbn [withNesting withNow withTimers timers]. lia. }
      rewrite H1. lia.
    + change (exec (childEnd c) ?x) with (withDraws (S (draws x)) x).
      unfold inFlight, firedState. cbn [withDraws withNesting withNow withTimers timers].
      cbn. lia.
    + rewrite spanEnd_effects. unfold exec. rewrite spanEnd_run.
      unfold inFlight, completionEffects, firedState.
      cbn [fst snd withActiveSpans withNesting withNow withTimers timers].
      rewrite !gaugeTotal_app.
      destruct (isError r); destruct (spanCount _ mod 10 =? 0); cbn; lia.
Qed.

Lemma handle_orderly (a : Action) (s : State) :
  orderly s -> orderly (exec (handle a) s).
Proof.
  intros Hs. pose proof (run_orderly [a] s Hs) as H.
  cbn [run] in H. rewrite exec_bind in H. exact H.
Qed.

Lemma run_gauge (script : list Action) :
  forall s : State,
    orderly s ->
    gaugeTotal (effects (run script) s)
    = Z.of_nat (inFlight (exec (run script) s)) - Z.of_nat (inFlight s).
Proof.
  induction script as [|a script IH]; intros s Hs.
  - cbn. lia.
  - cbn [run]. rewrite effects_bind, exec_bind, gaugeTotal_app.
    rewrite (handle_gauge a s Hs), IH; [lia|].
    apply (handle_orderly a s Hs).
Qed.

(** X16: over any sequence of events of the page, the additions to the
    [load_test.active_spans] instrument sum to the number of requests
    in flight (generated, completion timer still pending), restarts
    included: the instrument, unlike the variable [activeSpans], never
    reads below zero. *)
Theorem gauge_counts_in_flight (r : nat -> Q) (script : list Action) :
  gaugeTotal (effects (run script) (initialState r))
  = Z.of_nat (inFlight (exec (run script) (initialState r))) /\
  0 <= gaugeTotal (effects (run script) (initialState r)).
Proof.
  rewrite (run_gauge script _ (initialState_orderly r)).
  change (inFlight (initialState r)) with O. lia.
Qed.

(** ** What the instruments are given *)

Lemma scheduleNext_plausible : emitsOnly (fun e => plausible e = true) scheduleNext.
Proof.
  unfold scheduleNext, generateSpan, addEvent, randomElement, randomDuration, emitLog.
  emits_only; reflexivity.
Qed.

Lemma completion_plausible (r : Request) (n : Z) :
  wellFormedRequest r -> Forall (fun e => plausible e = true) (completionEffects r n).
Proof.
  intros (Hd & Hin & He). unfold completionEffects.
  assert (Hrec : plausible (InstrumentRecord requestDuration (duration r)
                    [("method", AStr (method r)); ("endpoint", AStr (endpoint r));
                     ("status_code", AStr (toString (statusCode r)))]) = true).
  { cbn [plausible]. apply andb_true_intro. split; apply Z.leb_le; lia. }
  apply Forall_app. split; [|apply Forall_app; split].
  - rewrite He. cbn [statusCodes In] in Hin.
    destruct Hin as [<-|[<-|[<-|[<-|[<-|[<-|[<-|[<-|[<-|[]]]]]]]]]];
      repeat constructor.
  - repeat constructor. exact Hrec.
  - destruct (n mod 10 =? 0); repeat constructor.
Qed.

Lemma handle_plausible (a : Action) (s : State) :
  sane s -> Forall (fun e => plausible e = true) (effects (handle a) s).
Proof.
  intros [Hdraws Hreq]. destruct a; cbn [handle].
  - clear Hdraws Hreq. revert s.
    change (emitsOnly (fun e => plausible e = true) startLoadTest).
    unfold startLoadTest, updateUI, emitLog, scheduleNext, generateSpan, addEvent,
      randomElement, randomDuration, emitLog.
    emits_only; reflexivity.
  - clear Hdraws Hreq. revert s.
    change (emitsOnly (fun e => plausible e = true) stopLoadTest).
    unfold stopLoadTest, updateUI, emitLog, clearTimeout. emits_only; reflexivity.
  - unfold effects. rewrite updateConfig_run. repeat constructor.
  - rewrite timerFires_effects.
    destruct (earliest (timers s)) as [t|] eqn:He; [|constructor].
    pose proof (earliest_In _ _ He) as Hin.
    destruct (callback t) as [|c|r] eqn:Hcb; cbn [runCallback].
    + apply scheduleNext_plausible.
    + repeat constructor.
    + rewrite spanEnd_effects. apply completion_plausible. apply (Hreq t r Hin Hcb).
Qed.

Lemma requestOf_wellFormed (s : State) : unitDraws s -> wellFormedRequest (requestOf s).
Proof.
  intros Hdraws. split; [apply (duration_range s Hdraws)|]. split; [|reflexivity].
  unfold requestOf. cbn [statusCode].
  apply pick_in_array; [apply Hdraws | discriminate].
Qed.

Lemma sane_ext (s s' : State) :
  rng s' = rng s -> (forall t, In t (timers s') -> In t (timers s)) -> sane s -> sane s'.
Proof.
  intros Hrng Hsub [Hdraws Hreq]. constructor.
  - intros n. unfold unitDraws in Hdraws. rewrite Hrng. apply Hdraws.
  - intros t r Hin. apply Hreq. apply Hsub. exact Hin.
Qed.

Lemma generateSpan_sane (s : State) : sane s -> sane (exec generateSpan s).
Proof.
  intros [Hdraws Hreq]. rewrite generateSpan_exec. constructor.
  - exact Hdraws.
  - intros t r Hin Hcb. cbn [generatedState timers] in Hin.
    apply in_app_or in Hin. destruct Hin as [Hin|Hin]; [apply (Hreq t r Hin Hcb)|].
    unfold childTimers, primaryTimer in Hin.
    destruct (opensChild s); cbn [app In] in Hin;
      repeat match goal with
        | H : _ \/ _ |- _ => destruct H as [H|H]
        | H : False |- _ => destruct H
        end;
      subst t; cbn [callback] in Hcb; try discriminate Hcb;
      injection Hcb as <-; apply requestOf_wellFormed; exact Hdraws.
Qed.

Lemma forLoop_generateSpan_sane (n : nat) :
  forall (i : Z) (s : State),
    sane s -> sane (exec (forLoop n i (fun _ => generateSpan)) s).
Proof.
  induction n as [|n IH]; intros i s Hs; [exact Hs|].
  cbn [forLoop]. rewrite exec_bind. apply IH. apply generateSpan_sane. exact Hs.
Qed.

Lemma scheduleNext_sane (s : State) : sane s -> sane (exec scheduleNext s).
Proof.
  intros Hs. destruct (isRunning s) eqn:Hrun.
  - rewrite (scheduleNext_exec s Hrun). cbn zeta.
    pose proof (forLoop_generateSpan_sane (Z.to_nat (batchSize (config s))) 0 s Hs) as Hb.
    fold (batch (Z.to_nat (batchSize (config s)))) in Hb. fold (afterBatch s) in Hb.
    destruct Hb as [Hdraws Hreq]. constructor.
    + exact Hdraws.
    + intros t r Hin Hcb.
      cbn [withIntervalId withNextTimerId withTimers withDraws timers] in Hin.
      apply in_app_or in Hin. destruct Hin as [Hin|[<-|[]]]; [apply (Hreq t r Hin Hcb)|].
      discriminate Hcb.
  - unfold exec. rewrite (scheduleNext_stopped s Hrun). exact Hs.
Qed.

Lemma handle_sane (a : Action) (s : State) : sane s -> sane (exec (handle a) s).
Proof.
  intros Hs. destruct a; cbn [handle].
  - destruct (isRunning s) eqn:Hrun.
    + rewrite (startLoadTest_running s Hrun). exact Hs.
    + rewrite (startLoadTest_exec s Hrun). apply scheduleNext_sane.
      revert Hs. apply sane_ext; [reflexivity | intros t Ht; exact Ht].
  - rewrite stopLoadTest_exec. destruct (isRunning s); [|exact Hs].
    destruct (intervalId s) as [i|]; [destruct (i =? 0)|];
      revert Hs; apply sane_ext; try reflexivity; try (intros t Ht; exact Ht).
    intros t Ht. apply (removeTimer_In i _ t Ht).
  - unfold exec. rewrite updateConfig_run. cbn [fst snd].
    revert Hs. apply sane_ext; [reflexivity | intros t Ht; exact Ht].
  - rewrite timerFires_exec. destruct (earliest (timers s)) as [t|]; [|exact Hs].
    assert (Hs1 : sane (firedState t s)).
    { revert Hs. apply sane_ext; [reflexivity|].
      intros u Hu. apply (removeTimer_In (timerId t) _ u Hu). }
    apply (sane_ext (exec (runCallback (callback t)) (firedState t s)));
      [reflexivity | intros u Hu; exact Hu |].
    destruct (callback t) as [|c|r]; cbn [runCallback].
    + apply scheduleNext_sane. exact Hs1.
    + revert Hs1. apply sane_ext; [reflexivity | intros u Hu; exact Hu].
    + unfold exec. rewrite spanEnd_run. cbn [fst snd].
      revert Hs1. apply sane_ext; [reflexivity | intros u Hu; exact Hu].
Qed.

Lemma run_plausible (script : list Action) :
  forall s : State, sane s -> Forall (fun e => plausible e = true) (effects (run script) s).
Proof.
  induction script as [|a script IH]; intros s Hs.
  - constructor.
  - cbn [run]. rewrite effects_bind. apply Forall_app. split.
    + apply handle_plausible. exact Hs.
    + apply IH. apply handle_sane. exact Hs.
Qed.

(** X17: with draws of [[0,1)], whatever happens to the page, the
    histogram is only given durations of [[50, 549]], the request and
    error counters are only incremented by 1, the error counter only
    under a status tag of 400, 404 or 500, the active-spans instrument
    only moved by 1 or -1, and a span status is either the error code
    with a message or the success code without. *)
Theorem instruments_in_range (r : nat -> Q) (script : list Action) :
  (forall n : nat, (0 <= r n < 1)%Q) ->
  Forall (fun e => plausible e = true) (effects (run script) (initialState r)).
Proof.
  intros Hr. apply run_plausible. constructor.
  - exact Hr.
  - intros t q Hin. destruct Hin.
Qed.

Lemma instruments_in_range_witness :
  Forall (fun e => plausible e = true)
    (effects (run [clickStart; timerFired; timerFired; clickStop])
       (initialState (fun _ => 3 # 4))).
Proof.
  apply (instruments_in_range (fun _ => 3 # 4)
           [clickStart; timerFired; timerFired; clickStop]).
  intros n. split; [discriminate | reflexivity].
Defined.

(** ** Sequence numbers *)

Lemma spanNumbers_app (a b : list Effect) :
  spanNumbers (a ++ b) = (spanNumbers a ++ spanNumbers b)%list.
Proof. unfold spanNumbers. apply flat_map_app. Qed.

Lemma generateSpan_spanNumbers (s : State) :
  spanNumbers (effects generateSpan s) = [spanCount s + 1].
Proof.
  rewrite generateSpan_effects. unfold generatedEffects. cbn zeta.
  rewrite !spanNumbers_app.
  assert (Hev : spanNumbers (generatedEvents s) = []).
  { unfold generatedEvents, spanNumbers.
    induction (seq 0 (Z.to_nat (numEventsOf s))) as [|k l IH];
      [reflexivity | cbn [map flat_map eventOf app]; exact IH]. }
  rewrite Hev. destruct (opensChild s); reflexivity.
Qed.

Lemma forLoop_generateSpan_spanNumbers (n : nat) :
  forall (i : Z) (s : State),
    spanNumbers (effects (forLoop n i (fun _ => generateSpan)) s)
    = map (fun k => spanCount s + Z.of_nat k) (seq 1 n).
Proof.
  induction n as [|n IH]; intros i s; [reflexivity|].
  cbn [forLoop]. rewrite effects_bind, spanNumbers_app, generateSpan_spanNumbers, IH.
  rewrite generateSpan_exec. cbn [generatedState spanCount seq map app].
  f_equal. rewrite <- (seq_shift n 1), map_map. apply map_ext. intros k. lia.
Qed.

(** X21: a cycle numbers the requests of its batch consecutively after
    the current total: their ['span.number'] attributes are
    [spanCount + 1, ..., spanCount + batchSize], in order of generation;
    in particular the batch [startLoadTest] generates is numbered from
    1. *)
Theorem batch_numbers_consecutively (s : State) :
  (isRunning s = true ->
   spanNumbers (effects scheduleNext s)
   = map (fun k => spanCount s + Z.of_nat k) (seq 1 (Z.to_nat (batchSize (config s))))) /\
  (isRunning s = false ->
   spanNumbers (effects startLoadTest s)
   = map Z.of_nat (seq 1 (Z.to_nat (batchSize (config s))))).
Proof.
  split; intros Hrun.
  - rewrite (scheduleNext_effects s Hrun). apply forLoop_generateSpan_spanNumbers.
  - rewrite (startLoadTest_effects s Hrun), spanNumbers_app.
    rewrite (scheduleNext_effects (started s) eq_refl).
    unfold batch. rewrite forLoop_generateSpan_spanNumbers. reflexivity.
Qed.

End LoadTestingSpec.

(** * Properties of the collector stub *)

Module BackendSpec.

Import stdpp.base stdpp.gmap stdpp.strings.
Import Backend.

Lemma ioCopyDiscard_clean (b : list ReadResult) :
  forall n : Z,
    readsCleanly b = true ->
    ioCopyDiscard b n = ((n + Z.of_nat (length (bodyBytes b)))%Z, false, []).
Proof.
  induction b as [|[p|] b IH]; intros n Hb.
  - cbn. rewrite Z.add_0_r. reflexivity.
  - cbn [ioCopyDiscard bodyBytes]. cbn in Hb. rewrite IH by exact Hb.
    rewrite length_app, Nat2Z.inj_add, Z.add_assoc. reflexivity.
  - discriminate Hb.
Qed.

Lemma routes_registered (p : string) :
  In p routes -> existsb (String.eqb p) routes = true.
Proof.
  intros Hp. apply existsb_exists. exists p. split; [exact Hp|apply String.eqb_refl].
Qed.

(** C9: on each of the three routes the handler calls [WriteHeader]
    exactly once, and the response it sends carries the four CORS
    headers.  [OPTIONS] gets 204 and no body; a method other than [POST]
    and [OPTIONS] gets 405 with [Allow: POST]; [POST] gets 200 with
    body [{}], and when the reads of the request body do not fail the
    body is read to its end, all its bytes counted in the log line. *)
Theorem handler_responses (r : Request) :
  In (URLPath r) routes ->
  writeHeaderCalls (response (serveHTTP r)) = 1%nat /\
  sentHeader "Access-Control-Allow-Origin" (serveHTTP r) = Some ["*"] /\
  sentHeader "Access-Control-Allow-Methods" (serveHTTP r) = Some ["POST, OPTIONS"] /\
  sentHeader "Access-Control-Allow-Headers" (serveHTTP r) = Some ["*"] /\
  sentHeader "Access-Control-Max-Age" (serveHTTP r) = Some ["86400"] /\
  (Method r = "OPTIONS" ->
     status (serveHTTP r) = Some 204%Z /\ body (serveHTTP r) = []) /\
  (Method r <> "POST" -> Method r <> "OPTIONS" ->
     status (serveHTTP r) = Some 405%Z /\
     sentHeader "Allow" (serveHTTP r) = Some ["POST"]) /\
  (Method r = "POST" ->
     status (serveHTTP r) = Some 200%Z /\
     body (serveHTTP r) = bytes "{}" /\
     (readsCleanly (Body r) = true ->
        unread (serveHTTP r) = [] /\
        logged (serveHTTP r)
        = ["request: method=POST path=" +:+ URLPath r +:+ " size_bytes="
             +:+ formatInt (Z.of_nat (length (bodyBytes (Body r))))
             +:+ " remote=" +:+ RemoteAddr r])).
Proof.
  intros Hroute. unfold serveHTTP. rewrite (routes_registered _ Hroute).
  unfold handler, MethodOptions, MethodPost.
  destruct (String.eqb_spec (Method r) "OPTIONS") as [Ho|Ho].
  - repeat split; try reflexivity; intros; try congruence.
    all: rewrite Ho in *; discriminate.
  - destruct (String.eqb_spec (Method r) "POST") as [Hp|Hp]; cbn [negb].
    + destruct (ioCopyDiscard (Body r) 0) as [[n e] rest] eqn:Hcopy.
      repeat split; try reflexivity; intros; try congruence.
      all: rewrite ioCopyDiscard_clean in Hcopy by assumption;
        injection Hcopy as <- _ <-; rewrite ?Hp; reflexivity.
    + repeat split; try reflexivity; intros; congruence.
Qed.

Lemma handler_responses_witness :
  In (URLPath post100) routes /\
  status (serveHTTP post100) = Some 200%Z /\
  body (serveHTTP post100) = bytes "{}" /\
  unread (serveHTTP post100) = [] /\
  logged (serveHTTP post100)
  = ["request: method=POST path=/v1/traces size_bytes=100 remote=127.0.0.1:51234"].
Proof.
  assert (Hroute : In (URLPath post100) routes) by (left; reflexivity).
  split; [exact Hroute|].
  destruct (handler_responses post100 Hroute) as (_ & _ & _ & _ & _ & _ & _ & Hpost).
  destruct (Hpost eq_refl) as (Hs & Hb & Hclean).
  destruct (Hclean eq_refl) as (Hu & Hl).
  repeat split; assumption.
Defined.

(** [OPTIONS /v1/metrics]: 204, empty body, CORS headers present. *)
Example preflight_response :
  status (serveHTTP preflight) = Some 204%Z /\
  body (serveHTTP preflight) = [] /\
  sentHeader "Access-Control-Allow-Origin" (serveHTTP preflight) = Some ["*"] /\
  sentHeader "Access-Control-Allow-Methods" (serveHTTP preflight) = Some ["POST, OPTIONS"] /\
  sentHeader "Allow" (serveHTTP preflight) = None.
Proof. repeat split; reflexivity. Qed.

(** A path that is not registered is answered by the mux, with 404. *)
Example unregistered_path :
  status (serveHTTP {| Method := "POST"; URLPath := "/v1/profiles"; RemoteAddr := "";
                       Body := [] |})
  = Some 404%Z.
Proof. reflexivity. Qed.

(** * Further properties of the collector stub *)

Lemma ioCopyDiscard_reads (b : list ReadResult) :
  forall n : Z,
    exists pre : list (list Byte.byte),
      (b = map Data pre /\
       ioCopyDiscard b n = ((n + Z.of_nat (length (concat pre)))%Z, false, [])) \/
      (exists rest : list ReadResult,
         b = map Data pre ++ ReadError :: rest /\
         ioCopyDiscard b n = ((n + Z.of_nat (length (concat pre)))%Z, true, rest)).
Proof.
  induction b as [|[p|] b IH]; intros n.
  - exists []. left. cbn. rewrite Z.add_0_r. split; reflexivity.
  - destruct (IH (n + Z.of_nat (length p))%Z) as (pre & [[Hb Hc]|(rest & Hb & Hc)]);
      exists (p :: pre); [left|right; exists rest];
      (split; [cbn [map app]; rewrite Hb; reflexivity|]);
      cbn [ioCopyDiscard concat]; rewrite Hc, length_app, Nat2Z.inj_add, Z.add_assoc;
      reflexivity.
  - exists []. right. exists b. cbn. rewrite Z.add_0_r. split; reflexivity.
Qed.

(** X18: a submission whose body fails to read is answered like any
    other, with 200 and [{}]: the handler drops the error of [io.Copy].
    The body is read up to the first failing read; the log line reports
    the bytes of the reads before it, and what follows stays unread. *)
Theorem post_with_failing_read (r : Request) :
  In (URLPath r) routes ->
  Method r = "POST" ->
  status (serveHTTP r) = Some 200%Z /\
  body (serveHTTP r) = bytes "{}" /\
  exists pre : list (list Byte.byte),
    logged (serveHTTP r)
    = ["request: method=POST path=" +:+ URLPath r +:+ " size_bytes="
         +:+ formatInt (Z.of_nat (length (concat pre)))
         +:+ " remote=" +:+ RemoteAddr r] /\
    ((Body r = map Data pre /\ unread (serveHTTP r) = []) \/
     (Body r = map Data pre ++ ReadError :: unread (serveHTTP r))).
Proof.
  intros Hroute Hpost. unfold serveHTTP. rewrite (routes_registered _ Hroute).
  unfold handler, MethodOptions, MethodPost. rewrite Hpost. cbn [String.eqb Ascii.eqb Bool.eqb negb].
  destruct (ioCopyDiscard_reads (Body r) 0) as (pre & [[Hb Hc]|(rest & Hb & Hc)]);
    rewrite Hc; (split; [reflexivity|]); (split; [reflexivity|]); exists pre;
    (split; [reflexivity|]); [left|right]; cbn [unread]; auto.
Qed.

Lemma post_with_failing_read_witness :
  status (serveHTTP {| Method := "POST"; URLPath := "/v1/logs"; RemoteAddr := "[::1]:4000";
                       Body := [Data (repeat Byte.x7b 7); ReadError; Data (repeat Byte.x7d 5)] |})
  = Some 200%Z /\
  logged (serveHTTP {| Method := "POST"; URLPath := "/v1/logs"; RemoteAddr := "[::1]:4000";
                       Body := [Data (repeat Byte.x7b 7); ReadError; Data (repeat Byte.x7d 5)] |})
  = ["request: method=POST path=/v1/logs size_bytes=7 remote=[::1]:4000"] /\
  unread (serveHTTP {| Method := "POST"; URLPath := "/v1/logs"; RemoteAddr := "[::1]:4000";
                       Body := [Data (repeat Byte.x7b 7); ReadError; Data (repeat Byte.x7d 5)] |})
  = [Data (repeat Byte.x7d 5)].
Proof.
  destruct (post_with_failing_read
              {| Method := "POST"; URLPath := "/v1/logs"; RemoteAddr := "[::1]:4000";
                 Body := [Data (repeat Byte.x7b 7); ReadError; Data (repeat Byte.x7d 5)] |}
              ltac:(right; left; reflexivity) eq_refl) as (Hs & _ & _).
  split; [exact Hs|]. split; reflexivity.
Defined.

(** X19: on a registered route only a [POST] touches the request body
    or writes a log line: an [OPTIONS] request and a request with any
    other method leave the body unread and log nothing. *)
Theorem only_post_reads_and_logs (r : Request) :
  In (URLPath r) routes ->
  Method r <> "POST" ->
  unread (serveHTTP r) = Body r /\ logged (serveHTTP r) = [].
Proof.
  intros Hroute Hm. unfold serveHTTP. rewrite (routes_registered _ Hroute).
  unfold handler, MethodOptions, MethodPost.
  destruct (String.eqb (Method r) "OPTIONS"); [split; reflexivity|].
  destruct (String.eqb_spec (Method r) "POST"); [contradiction|].
  split; reflexivity.
Qed.

Lemma only_post_reads_and_logs_witness :
  unread (serveHTTP {| Method := "PUT"; URLPath := "/v1/traces"; RemoteAddr := "";
                       Body := [Data (repeat Byte.x7b 3)] |})
  = [Data (repeat Byte.x7b 3)] /\
  logged (serveHTTP {| Method := "PUT"; URLPath := "/v1/traces"; RemoteAddr := "";
                       Body := [Data (repeat Byte.x7b 3)] |}) = [].
Proof.
  apply (only_post_reads_and_logs
           {| Method := "PUT"; URLPath := "/v1/traces"; RemoteAddr := "";
              Body := [Data (repeat Byte.x7b 3)] |}).
  - left. reflexivity.
  - discriminate.
Defined.

(** X20: the rejection of a method ([HEAD], whose answers carry no
    body, set aside) is a plain-text answer: status 405, body "method
    not allowed" and a newline, [Content-Type: text/plain;
    charset=utf-8], [X-Content-Type-Options: nosniff], no
    [Content-Length] set by the handler. *)
Theorem method_not_allowed_answer (r : Request) :
  In (URLPath r) routes ->
  Method r <> "POST" -> Method r <> "OPTIONS" -> Method r <> "HEAD" ->
  status (serveHTTP r) = Some 405%Z /\
  body (serveHTTP r) = bytes ("method not allowed" +:+ String "010" "") /\
  sentHeader "Content-Type" (serveHTTP r) = Some ["text/plain; charset=utf-8"] /\
  sentHeader "X-Content-Type-Options" (serveHTTP r) = Some ["nosniff"] /\
  sentHeader "Content-Length" (serveHTTP r) = None.
Proof.
  intros Hroute Hpost Hoptions _. unfold serveHTTP. rewrite (routes_registered _ Hroute).
  unfold handler, MethodOptions, MethodPost.
  destruct (String.eqb_spec (Method r) "OPTIONS"); [contradiction|].
  destruct (String.eqb_spec (Method r) "POST"); [contradiction|].
  repeat split; reflexivity.
Qed.

Lemma method_not_allowed_answer_witness :
  status (serveHTTP {| Method := "GET"; URLPath := "/v1/metrics"; RemoteAddr := "";
                       Body := [] |}) = Some 405%Z /\
  body (serveHTTP {| Method := "GET"; URLPath := "/v1/metrics"; RemoteAddr := "";
                     Body := [] |})
  = bytes ("method not allowed" +:+ String "010" "").
Proof.
  destruct (method_not_allowed_answer
              {| Method := "GET"; URLPath := "/v1/metrics"; RemoteAddr := ""; Body := [] |}
              ltac:(right; right; left; reflexivity) ltac:(discriminate) ltac:(discriminate)
              ltac:(discriminate))
    as (Hs & Hb & _).
  split; assumption.
Defined.

End BackendSpec.
